(** * redzer_automate.py: the project initialisation workflow

    A shallow embedding of [src/redzer_automate.py] and the properties of
    its workflow: configuration loading, the destructive directory reset,
    template materialisation and instantiation, and the five external
    commands.

    Modelling conventions.
    - The script is stateful: it changes the filesystem, appends to the
      log and spawns external commands.  A [world] record holds these
      three things and every function of the script is a computation in a
      state-and-exception monad [M] over it.  A Python exception that is
      raised leaves the world as it was at the point of the raise.
    - The filesystem is a finite map from resolved absolute paths (lists of
      names from the root) to nodes; the root is always a directory.
      Symbolic links and permissions are outside the model.
    - The configuration path is a string that the script hands to
      [os.path.exists] and [open] as it is: it is walked as the operating
      system walks it, through [.], [..], empty names and a slash at the
      end.
    - [pathlib] is embedded in its POSIX flavour; a root written with two
      slashes is read as the plain root.  The names of a [Path] are taken
      as they are written: where the meaning of [..] or the limits of the
      system on names matter to a property, the property is stated for
      paths without them ([plain], [portable]).
    - Text-mode I/O translates newlines as Python does; the newline written
      for a line feed ([os.linesep]) is a parameter.  For the files that
      the script writes and reads back, the byte/character codec of the
      locale is the identity: the script only ever writes ASCII text.
    - What external programs and the YAML library do is not the script's:
      [subprocess.run] and [yaml.safe_load] are parameters of the
      development.  A command that is spawned runs to completion and may
      leave any tree behind; the load of a file returns a value or raises
      the error of the parser or of the codec. *)

From Stdlib Require Import ZArith Ascii.
From stdpp Require Import gmap strings list fin_maps.

Local Open Scope Z_scope.

(** ** Strings *)

Definition nl : ascii := Eval cbv in ascii_of_nat 10.
Definition cr : ascii := Eval cbv in ascii_of_nat 13.
Definition nul : ascii := Eval cbv in ascii_of_nat 0.
Definition dq : string := Eval cbv in String (ascii_of_nat 34) EmptyString.

Definition line (s : string) : string := s +:+ String nl EmptyString.

(** [unlines] ends every line with a line feed, as the triple-quoted
    literals of the script do. *)
Fixpoint unlines (ls : list string) : string :=
  match ls with
  | [] => EmptyString
  | l :: ls' => line l +:+ unlines ls'
  end.

Fixpoint join (sep : string) (ls : list string) : string :=
  match ls with
  | [] => EmptyString
  | [l] => l
  | l :: ls' => l +:+ sep +:+ join sep ls'
  end.

(** Splitting at every occurrence of a character; the result is never
    empty, and has empty pieces where separators are adjacent. *)
Fixpoint split_on (c : ascii) (s : string) : list string :=
  match s with
  | EmptyString => [EmptyString]
  | String a s' =>
      if decide (a = c) then EmptyString :: split_on c s'
      else match split_on c s' with
           | h :: t => String a h :: t
           | [] => [String a EmptyString]
           end
  end.

Fixpoint mentions (c : ascii) (s : string) : bool :=
  match s with
  | EmptyString => false
  | String a s' => bool_decide (a = c) || mentions c s'
  end.

(** ** Paths: [pathlib.PurePosixPath] *)

Record Path := mkPath { anchored : bool; parts : list string }.

#[global] Instance Path_eq_dec : EqDecision Path.
Proof. solve_decision. Defined.

Definition starts_with_slash (s : string) : bool :=
  match s with
  | String a _ => bool_decide (a = "/"%char)
  | EmptyString => false
  end.

(** Names of a path string: empty pieces and [.] are dropped. *)
Definition names_of (s : string) : list string :=
  filter (fun n => n <> EmptyString /\ n <> ".") (split_on "/" s).

(** [Path(s)] *)
Definition PurePath (s : string) : Path :=
  mkPath (starts_with_slash s) (names_of s).

(** [p / s] for a string [s]: an absolute right operand replaces the left
    one. *)
Definition joinpath (p : Path) (s : string) : Path :=
  let q := PurePath s in
  if anchored q then q else mkPath (anchored p) (parts p ++ parts q).

(** [str(p)] *)
Definition str (p : Path) : string :=
  if anchored p then "/" +:+ join "/" (parts p)
  else match parts p with
       | [] => "."
       | _ => join "/" (parts p)
       end.

(** ** The filesystem *)

Inductive node :=
  | File (content : string)
  | Dir.

#[global] Instance node_eq_dec : EqDecision node.
Proof. solve_decision. Defined.

(** A resolved path: the names from the root down. *)
Abbreviation location := (list string).
Abbreviation tree := (gmap (list string) node).

Definition stat (t : tree) (l : location) : option node :=
  match l with
  | [] => Some Dir
  | _ => t !! l
  end.

Definition parent (l : location) : location := removelast l.

Fixpoint is_prefix (l k : location) : bool :=
  match l, k with
  | [], _ => true
  | _ :: _, [] => false
  | a :: l', b :: k' => bool_decide (a = b) && is_prefix l' k'
  end.

(** Why a path string names nothing: [ENOENT], [ENOTDIR], and the null
    character that Python refuses before it asks the system. *)
Inductive lookup_failure :=
  | NoSuchEntry
  | NotADirectory
  | EmbeddedNull.

(** The walk of the operating system along the names of a path string,
    from the location [l]: each name is looked up in what has been reached
    so far, which must be there and be a directory; an empty name and [.]
    stay in it and [..] steps up, the root being its own parent.  The
    location reached last is returned as it is, or else the failure and
    the location at which the walk stopped. *)
Fixpoint walk (t : tree) (l : location) (names : list string)
  : lookup_failure * location + location :=
  match names with
  | [] => inr l
  | n :: names' =>
      match stat t l with
      | None => inl (NoSuchEntry, l)
      | Some (File _) => inl (NotADirectory, l)
      | Some Dir =>
          if decide (n = EmptyString \/ n = ".") then walk t l names'
          else if decide (n = "..") then walk t (parent l) names'
          else walk t (l ++ [n]) names'
      end
  end.

(** Every entry hangs below a directory. *)
Definition well_formed (t : tree) : Prop :=
  map_Forall (fun l _ => l <> [] /\ stat t (parent l) = Some Dir) t.

#[global] Instance well_formed_dec t : Decision (well_formed t).
Proof. unfold well_formed. apply map_Forall_dec. intros l n. apply _. Defined.

(** ** Exceptions, outcomes and the world *)

Inductive exn :=
  | SystemExit (code : Z)
  | KeyError (key : string)
  | TypeError
  | YAMLError
  | UnicodeDecodeError
  | ValueError
  | FileNotFoundError (l : location)
  | FileExistsError (l : location)
  | NotADirectoryError (l : location)
  | IsADirectoryError (l : location)
  | OSError (l : location).

#[global] Instance exn_eq_dec : EqDecision exn.
Proof. solve_decision. Defined.

Inductive outcome (A : Type) :=
  | Ret (a : A)
  | Raise (e : exn).
Arguments Ret {A} a.
Arguments Raise {A} e.

Inductive level := INFO | ERROR.

#[global] Instance level_eq_dec : EqDecision level.
Proof. solve_decision. Defined.

Abbreviation environment := (gmap string string).

(** One call of [subprocess.run]: the command line and the [env] argument. *)
Record call := mkCall { command : string; env_of : option environment }.

Record world := mkWorld {
  files : tree;
  logs : list (level * string);
  calls : list call
}.

Definition M (A : Type) : Type := world -> outcome A * world.

Definition ret {A} (a : A) : M A := fun w => (Ret a, w).
Definition throw {A} (e : exn) : M A := fun w => (Raise e, w).
Definition bind {A B} (m : M A) (k : A -> M B) : M B :=
  fun w => match m w with
           | (Ret a, w') => k a w'
           | (Raise e, w') => (Raise e, w')
           end.

Declare Scope py_scope.
Delimit Scope py_scope with py.
Notation "x <- m ;; k" := (bind m (fun x => k))
  (at level 100, m at next level, right associativity) : py_scope.
Notation "m ;; k" := (bind m (fun _ => k))
  (at level 100, right associativity) : py_scope.
Local Open Scope py_scope.

(** ** Text-mode I/O and UTF-8 *)

(** [os.linesep] *)
Inductive os_linesep := LF | CRLF.

Definition linesep_string (sep : os_linesep) : string :=
  match sep with
  | LF => String nl EmptyString
  | CRLF => String cr (String nl EmptyString)
  end.

(** Writing in text mode: every line feed becomes [os.linesep]. *)
Fixpoint write_newlines (sep : os_linesep) (s : string) : string :=
  match s with
  | EmptyString => EmptyString
  | String a s' =>
      if decide (a = nl) then linesep_string sep +:+ write_newlines sep s'
      else String a (write_newlines sep s')
  end.

(** Reading in text mode (universal newlines): CR LF and a lone CR are
    read as a line feed. *)
Fixpoint read_newlines (s : string) : string :=
  match s with
  | EmptyString => EmptyString
  | String a s' =>
      if decide (a = cr) then
        match s' with
        | String b s'' =>
            if decide (b = nl) then String nl (read_newlines s'')
            else String nl (read_newlines s')
        | EmptyString => String nl EmptyString
        end
      else String a (read_newlines s')
  end.

Definition between (lo hi : N) (a : ascii) : bool :=
  ((lo <=? N_of_ascii a) && (N_of_ascii a <=? hi))%N.

(** Well-formed UTF-8 as [bytes.decode('utf-8')] accepts it: shortest
    forms only, no surrogates, nothing above U+10FFFF. *)
Fixpoint utf8_valid (s : string) : bool :=
  match s with
  | EmptyString => true
  | String a s1 =>
      if between 0x00 0x7f a then utf8_valid s1
      else
        match s1 with
        | EmptyString => false
        | String a1 s2 =>
            if between 0xc2 0xdf a then between 0x80 0xbf a1 && utf8_valid s2
            else
              match s2 with
              | EmptyString => false
              | String a2 s3 =>
                  if between 0xe0 0xef a then
                    (if between 0xe0 0xe0 a then between 0xa0 0xbf a1
                     else if between 0xed 0xed a then between 0x80 0x9f a1
                     else between 0x80 0xbf a1)
                    && between 0x80 0xbf a2 && utf8_valid s3
                  else
                    match s3 with
                    | EmptyString => false
                    | String a3 s4 =>
                        between 0xf0 0xf4 a
                        && (if between 0xf0 0xf0 a then between 0x90 0xbf a1
                            else if between 0xf4 0xf4 a then between 0x80 0x8f a1
                            else between 0x80 0xbf a1)
                        && between 0x80 0xbf a2 && between 0x80 0xbf a3
                        && utf8_valid s4
                    end
              end
        end
  end.

(** [b.decode('utf-8')]: the text, kept as its bytes, or
    [UnicodeDecodeError]. *)
Definition decode_utf8 (b : string) : option string :=
  if utf8_valid b then Some b else None.

(** ** Configuration values: what [yaml.safe_load] returns *)

(** String keys only: the script subscripts with string keys, which no
    other key equals.  Numeric scalars of any kind stand as [YInt]. *)
#[warnings="-register-all"] Inductive yaml :=
  | YNull
  | YBool (b : bool)
  | YInt (z : Z)
  | YStr (s : string)
  | YSeq (l : list yaml)
  | YMap (m : gmap string yaml).

(** What [yaml.safe_load(file)] makes of a file opened in text mode: the
    value it returns, or the error it raises, which is the parser's
    ([yaml.YAMLError]) or that of the codec that decodes the file
    ([UnicodeDecodeError]). *)
Inductive loaded :=
  | Parsed (config : yaml)
  | Malformed
  | Undecodable.

(** ** What a finished external command leaves behind *)

Record completed := mkCompleted {
  returncode : Z;
  stdout : string;
  stderr : string;
  files_after : tree
}.

(** ** The script *)

Section Script.

(** The process: its working directory, [os.environ] and [os.linesep]. *)
Variable cwd : location.
Variable environ : environment.
Variable linesep : os_linesep.

(** [subprocess.run(command, shell=True, env=env)] run to completion as
    the [n]-th command of the process on the given filesystem. *)
Variable subprocess_run : nat -> string -> option environment -> tree -> completed.

(** [yaml.safe_load(file)] on a file, opened in text mode, that holds the
    given bytes. *)
Variable safe_load : string -> loaded.

Definition resolve (p : Path) : location :=
  if anchored p then parts p else cwd ++ parts p.

(** *** Logging *)

Definition logging (lv : level) (msg : string) : M unit :=
  fun w => (Ret tt, mkWorld (files w) (logs w ++ [(lv, msg)]) (calls w)).

(** *** Filesystem primitives *)

Definition set_files (t : tree) : M unit :=
  fun w => (Ret tt, mkWorld t (logs w) (calls w)).

Definition get_files : M tree := fun w => (Ret (files w), w).

(** [p.exists()], the names of [p] taken as they are written. *)
Definition Path_exists (p : Path) : M bool :=
  t <- get_files ;; ret (bool_decide (is_Some (stat t (resolve p)))).

(** [os.stat(s)] for a path string, as it is written: the location that the
    string names and what is there.  The empty string names nothing; a
    string that starts with a slash is walked from the root and any other
    from the working directory; the walk goes through every name between
    the slashes, so that a slash at the end asks for a directory. *)
Definition os_stat (t : tree) (s : string)
  : lookup_failure * location + location * node :=
  if mentions nul s then inl (EmbeddedNull, [])
  else if decide (s = EmptyString) then inl (NoSuchEntry, cwd)
  else
    match walk t (if starts_with_slash s then [] else cwd) (split_on "/" s) with
    | inl failure => inl failure
    | inr l =>
        match stat t l with
        | Some n => inr (l, n)
        | None => inl (NoSuchEntry, l)
        end
    end.

Definition os_exists (t : tree) (s : string) : bool :=
  match os_stat t s with
  | inr _ => true
  | inl _ => false
  end.

(** [os.path.exists(s)]: whether [os.stat(s)] succeeds. *)
Definition os_path_exists (s : string) : M bool :=
  t <- get_files ;; ret (os_exists t s).

(** [open(s, 'r')] for a path string: the bytes of the file. *)
Definition os_open_read (s : string) : M string :=
  t <- get_files ;;
  match os_stat t s with
  | inr (_, File b) => ret b
  | inr (l, Dir) => throw (IsADirectoryError l)
  | inl (NoSuchEntry, l) => throw (FileNotFoundError l)
  | inl (NotADirectory, l) => throw (NotADirectoryError l)
  | inl (EmbeddedNull, _) => throw ValueError
  end.

(** [os.mkdir(l)] *)
Definition os_mkdir (l : location) (t : tree) : outcome tree :=
  match stat t l with
  | Some _ => Raise (FileExistsError l)
  | None =>
      match stat t (parent l) with
      | Some Dir => Ret (<[l := Dir]> t)
      | Some (File _) => Raise (NotADirectoryError l)
      | None => Raise (FileNotFoundError l)
      end
  end.

Definition is_dir (t : tree) (l : location) : bool :=
  bool_decide (stat t l = Some Dir).

(** [Path.mkdir(parents=False, exist_ok=exist_ok)] on a tree. *)
Definition mkdir_plain (exist_ok : bool) (l : location) (t : tree) : outcome tree :=
  match os_mkdir l t with
  | Ret t' => Ret t'
  | Raise (FileNotFoundError l') => Raise (FileNotFoundError l')
  | Raise e => if exist_ok && is_dir t l then Ret t else Raise e
  end.

(** [Path.mkdir(parents=True, exist_ok=exist_ok)] on a tree, for the path
    with the given anchor whose names are [rnames] read backwards: when the
    parent is missing, it is made first (tolerating that it exists) and the
    directory is then made without [parents]. *)
Fixpoint mkdir_parents (exist_ok anch : bool) (rnames : list string) (t : tree)
  : outcome tree :=
  let l := resolve (mkPath anch (rev rnames)) in
  match os_mkdir l t with
  | Ret t' => Ret t'
  | Raise (FileNotFoundError l') =>
      match rnames with
      | [] => Raise (FileNotFoundError l')
      | _ :: rnames' =>
          match mkdir_parents true anch rnames' t with
          | Ret t1 => mkdir_plain exist_ok l t1
          | Raise e => Raise e
          end
      end
  | Raise e => if exist_ok && is_dir t l then Ret t else Raise e
  end.

Definition lift_tree (f : tree -> outcome tree) : M unit :=
  fun w => match f (files w) with
           | Ret t => (Ret tt, mkWorld t (logs w) (calls w))
           | Raise e => (Raise e, w)
           end.

(** [p.mkdir(parents=parents)] *)
Definition Path_mkdir (parents : bool) (p : Path) : M unit :=
  if parents then lift_tree (mkdir_parents false (anchored p) (rev (parts p)))
  else lift_tree (mkdir_plain false (resolve p)).

(** Everything at or below [l] is gone. *)
Definition prune (l : location) (t : tree) : tree :=
  filter (fun e => is_prefix l e.1 = false) t.

(** Everything below [l] is gone; the entry at [l] itself stays. *)
Definition empty_out (l : location) (t : tree) : tree :=
  filter (fun e => is_prefix l e.1 = false \/ e.1 = l) t.

(** [shutil.rmtree(p)]: the directory and all below it are removed.  A path
    without names ([/] or [.]) is emptied, but the directory itself cannot
    be removed: it stays, and the call raises. *)
Definition rmtree (p : Path) : M unit :=
  t <- get_files ;;
  match stat t (resolve p) with
  | None => throw (FileNotFoundError (resolve p))
  | Some (File _) => throw (NotADirectoryError (resolve p))
  | Some Dir =>
      if decide (parts p = []) then
        set_files (empty_out (resolve p) t) ;; throw (OSError (resolve p))
      else set_files (prune (resolve p) t)
  end.

(** [open(p, 'w')] followed by [file.write(content)] *)
Definition open_write (p : Path) (content : string) : M unit :=
  t <- get_files ;;
  match stat t (resolve p) with
  | Some Dir => throw (IsADirectoryError (resolve p))
  | _ =>
      match stat t (parent (resolve p)) with
      | Some Dir => set_files (<[resolve p := File (write_newlines linesep content)]> t)
      | Some (File _) => throw (NotADirectoryError (resolve p))
      | None => throw (FileNotFoundError (resolve p))
      end
  end.

(** [open(p, 'r')] followed by [file.read()] *)
Definition open_read (p : Path) : M string :=
  t <- get_files ;;
  match stat t (resolve p) with
  | Some (File b) => ret (read_newlines b)
  | Some Dir => throw (IsADirectoryError (resolve p))
  | None =>
      match stat t (parent (resolve p)) with
      | Some (File _) => throw (NotADirectoryError (resolve p))
      | _ => throw (FileNotFoundError (resolve p))
      end
  end.

(** *** load_config *)

Definition load_config (config_file : string) : M yaml :=
  found <- os_path_exists config_file ;;
  (if negb found then
     logging ERROR ("Configuration file not found: " +:+ config_file) ;;
     throw (SystemExit 1)
   else ret tt) ;;
  bytes <- os_open_read config_file ;;
  match safe_load bytes with
  | Parsed config => ret config
  | Malformed => throw YAMLError
  | Undecodable => throw UnicodeDecodeError
  end.

(** *** write_file, read_file, run_command *)

Definition write_file (filepath : Path) (content : string) : M unit :=
  open_write filepath content ;;
  logging INFO ("Created " +:+ str filepath).

Definition read_file (filepath : Path) : M string := open_read filepath.

(** [subprocess.run(..., check=True, ...)]: the command is recorded, the
    filesystem is as the command left it. *)
Definition run (cmd : string) (env : option environment) : M completed :=
  fun w =>
    let r := subprocess_run (length (calls w)) cmd env (files w) in
    (Ret r, mkWorld (files_after r) (logs w) (calls w ++ [mkCall cmd env])).

Definition decode (b : string) : M string :=
  match decode_utf8 b with
  | Some s => ret s
  | None => throw UnicodeDecodeError
  end.

Definition run_command (cmd : string) (env : option environment) : M unit :=
  result <- run cmd env ;;
  if decide (returncode result = 0) then
    logging INFO ("Command succeeded: " +:+ cmd) ;;
    out <- decode (stdout result) ;;
    logging INFO out
  else
    (* except subprocess.CalledProcessError as e *)
    logging ERROR ("Command failed: " +:+ cmd) ;;
    err <- decode (stderr result) ;;
    logging ERROR err.

(** *** create_directories *)

(** The three template texts, lines 56-169 of the script. *)
Definition setup_content : string :=
  unlines [
    "from setuptools import setup, find_packages";
    EmptyString;
    "setup(";
    "    name='Redzer',";
    "    version='0.1',";
    "    packages=find_packages(),";
    "    install_requires=[";
    "        'requests',";
    "        'python-nmap',";
    "        'pytest',";
    "        'numpy',";
    "        'scikit-learn',";
    "        'scapy',";
    "        'tkinter',";
    "        'PyQt5',";
    "        'metasploit-py',";
    "        'johnny',";
    "    ],";
    "    entry_points={{";
    "        'console_scripts': [";
    "            'redzer-cli = cli:main',";
    "        ],";
    "    }},";
    "    description='A Red Teaming Automation Tool',";
    "    long_description=" +:+ dq +:+ dq +:+ dq +:+ "Redzer is a Python-based tool designed to automate various tasks commonly used during Red Team engagements. ";
    "    It provides functionalities for network scanning, vulnerability assessment, exploitation, and post-exploitation activities. ";
    "    This tool is intended for educational purposes and penetration testing professionals. ";
    "    Use it responsibly and ethically." +:+ dq +:+ dq +:+ dq +:+ ",";
    "    long_description_content_type=" +:+ dq +:+ "text/markdown" +:+ dq +:+ ",";
    "    author='Your Name',";
    "    author_email='youremail@example.com',";
    "    url='https://github.com/yourusername/redzer',";
    "    license='MIT',";
    "    keywords='redteam security automation pentest',";
    "    platforms='any',";
    "    classifiers=[";
    "        'Development Status :: 3 - Alpha',";
    "        'Intended Audience :: Security Professionals',";
    "        'License :: OSI Approved :: MIT License',";
    "        'Operating System :: OS Independent',";
    "        'Programming Language :: Python :: 3',";
    "        'Topic :: Security :: Penetration Testing',";
    "    ],";
    ")"
  ].

Definition redzer_spec_content : string :=
  unlines [
    "# redzer.spec";
    "block_cipher = None";
    EmptyString;
    "a = Analysis(['cli.py'],";
    "       pathex=['.'],";
    "       binaries=[],";
    "       datas=[('config.yaml', '.')],";
    "       hiddenimports=[],";
    "       hookspath=[],";
    "       runtime_hooks=[],";
    "       excludes=[],";
    "       winnoexcludes=[],";
    "       cipher=block_cipher,";
    "       noarchive=False)";
    "pyz = PYZ(a.pure, a.zipped_data,";
    "       cipher=block_cipher)";
    "exe = EXE(pyz,";
    "     a.scripts,";
    "     a.binaries,";
    "     a.zipfiles,";
    "     a.datas,";
    "     [],";
    "     name='redzer',";
    "     debug=False,";
    "     bootloader_ignore_signals=False,";
    "     strip=False,";
    "     upx=True,";
    "     upx_exclude=[],";
    "     runtime_tmpdir=None,";
    "     console=True, icon='icon.ico')";
    "coll = COLLECT(exe,";
    "        a.binaries,";
    "        a.zipfiles,";
    "        a.datas,";
    "        strip=False,";
    "        upx=True,";
    "        upx_exclude=[],";
    "        runtime_tmpdir=None)"
  ].

Definition redzer_installer_content : string :=
  unlines [
    "; redzer_installer.iss";
    "[Setup]";
    "AppName=Redzer";
    "AppVersion=0.1";
    "DefaultDirName={pf}\Redzer";
    "DefaultGroupName=Redzer";
    "OutputBaseFilename=redzer_installer";
    "Compression=lzma";
    "SolidCompression=yes";
    EmptyString;
    "[Languages]";
    "Name: " +:+ dq +:+ "english" +:+ dq +:+ "; MessagesFile: " +:+ dq +:+ "compiler:Default.isl" +:+ dq;
    EmptyString;
    "[Tasks]";
    "Name: " +:+ dq +:+ "desktopicon" +:+ dq +:+ "; Description: " +:+ dq +:+ "{cm:CreateDesktopIcon}" +:+ dq +:+ "; GroupDescription: " +:+ dq +:+ "{cm:AdditionalIcons}" +:+ dq +:+ "; Flags: checkedonce";
    EmptyString;
    "[Files]";
    "Source: " +:+ dq +:+ "dist\redzer.exe" +:+ dq +:+ "; DestDir: " +:+ dq +:+ "{app}" +:+ dq +:+ "; Flags: ignoreversion";
    "Source: " +:+ dq +:+ "config.yaml" +:+ dq +:+ "; DestDir: " +:+ dq +:+ "{app}" +:+ dq +:+ "; Flags: ignoreversion";
    EmptyString;
    "[Icons]";
    "Name: " +:+ dq +:+ "{group}\Redzer" +:+ dq +:+ "; Filename: " +:+ dq +:+ "{app}\redzer.exe" +:+ dq;
    "Name: " +:+ dq +:+ "{commondesktop}\Redzer" +:+ dq +:+ "; Filename: " +:+ dq +:+ "{app}\redzer.exe" +:+ dq +:+ "; Tasks: desktopicon";
    EmptyString;
    "[Run]";
    "Filename: " +:+ dq +:+ "{app}\redzer.exe" +:+ dq +:+ "; Description: " +:+ dq +:+ "{cm:LaunchProgram,Redzer}" +:+ dq +:+ "; Flags: nowait postinstall skipifsilent"
  ].

(** Lines 47-53: the project directory and its fixed subdirectories. *)
Definition make_tree (project_dir : Path) : M unit :=
  Path_mkdir true project_dir ;;
  Path_mkdir false (joinpath project_dir "modules") ;;
  Path_mkdir false (joinpath project_dir "services") ;;
  Path_mkdir false (joinpath project_dir "caching") ;;
  Path_mkdir false (joinpath project_dir "tests") ;;
  Path_mkdir false (joinpath project_dir "templates") ;;
  logging INFO "Created project directory structure".

(** Lines 43-53: the destructive reset of the project directory. *)
Definition reset_tree (project_dir : Path) : M unit :=
  found <- Path_exists project_dir ;;
  (if found then
     logging INFO ("Removing existing project directory: " +:+ str project_dir) ;;
     rmtree project_dir
   else ret tt) ;;
  make_tree project_dir.

(** Lines 171-175: the [template_files] dictionary, in insertion order. *)
Definition template_files (template_dir : Path) : list (Path * string) :=
  [ (joinpath template_dir "setup_template.py", setup_content);
    (joinpath template_dir "redzer_template.spec", redzer_spec_content);
    (joinpath template_dir "redzer_installer_template.iss", redzer_installer_content) ].

(** Lines 177-178: [for path, content in template_files.items()]. *)
Fixpoint write_all (items : list (Path * string)) : M unit :=
  match items with
  | [] => ret tt
  | (path, content) :: rest => write_file path content ;; write_all rest
  end.

Definition create_directories (project_dir template_dir : Path) : M unit :=
  reset_tree project_dir ;;
  write_all (template_files template_dir).

(** *** initialize_project *)

(** [config[key]] *)
Definition getitem (config : yaml) (key : string) : M yaml :=
  match config with
  | YMap m =>
      match m !! key with
      | Some v => ret v
      | None => throw (KeyError key)
      end
  | _ => throw TypeError
  end.

(** [Path(v)] *)
Definition Path_of (v : yaml) : M Path :=
  match v with
  | YStr s => ret (PurePath s)
  | _ => throw TypeError
  end.

(** [p / v] *)
Definition truediv (p : Path) (v : yaml) : M Path :=
  match v with
  | YStr s => ret (joinpath p s)
  | _ => throw TypeError
  end.

Record project_paths := mkPaths {
  project_dir_of : Path;
  template_dir_of : Path;
  venv_dir_of : Path
}.

(** Lines 182-185. *)
Definition derive_paths (config : yaml) : M project_paths :=
  project_name <- getitem config "project_name" ;;
  root <- (v <- getitem config "project_dir" ;; Path_of v) ;;
  project_dir <- truediv root project_name ;;
  let template_dir := joinpath project_dir "templates" in
  venv_dir <- (v <- getitem config "venv_dir" ;; truediv project_dir v) ;;
  ret (mkPaths project_dir template_dir venv_dir).

(** One template/output pair of lines 190-203: read the template back and
    write it at the project root; the output path is returned. *)
Definition instantiate (project_dir template_dir : Path) (template output : string)
  : M Path :=
  let output_path := joinpath project_dir output in
  content <- read_file (joinpath template_dir template) ;;
  write_file output_path content ;;
  ret output_path.

(** Lines 190-203; returns [spec_path] and [inno_setup_path]. *)
Definition write_outputs (project_dir template_dir : Path) : M (Path * Path) :=
  instantiate project_dir template_dir "setup_template.py" "setup.py" ;;
  spec_path <- instantiate project_dir template_dir "redzer_template.spec" "redzer.spec" ;;
  inno_setup_path <-
    instantiate project_dir template_dir "redzer_installer_template.iss" "redzer_installer.iss" ;;
  ret (spec_path, inno_setup_path).

(** [env["PATH"]] on the copy of [os.environ] *)
Definition env_getitem (env : environment) (key : string) : M string :=
  match env !! key with
  | Some v => ret v
  | None => throw (KeyError key)
  end.

Definition Scripts (venv_dir : Path) (tool : string) : Path :=
  joinpath (joinpath venv_dir "Scripts") tool.

(** Lines 205-223. *)
Definition build_and_package (config : yaml)
    (project_dir venv_dir spec_path inno_setup_path : Path) : M unit :=
  run_command ("python -m venv " +:+ str venv_dir) None ;;
  let activate_env := str (Scripts venv_dir "activate") in
  requirements <-
    (v <- getitem config "requirements_file" ;; truediv project_dir v) ;;
  let pip_install :=
    str (Scripts venv_dir "pip") +:+ " install -r " +:+ str requirements in
  let pyinstaller_install := str (Scripts venv_dir "pip") +:+ " install pyinstaller" in
  let env := environ in
  let env := <["VIRTUAL_ENV" := str venv_dir]> env in
  old_path <- env_getitem env "PATH" ;;
  let env := <["PATH" := str (joinpath venv_dir "Scripts") +:+ ";" +:+ old_path]> env in
  run_command (activate_env +:+ " && " +:+ pip_install) (Some env) ;;
  run_command (activate_env +:+ " && " +:+ pyinstaller_install) (Some env) ;;
  run_command (str (Scripts venv_dir "pyinstaller") +:+ " " +:+ str spec_path) (Some env) ;;
  run_command ("ISCC " +:+ str inno_setup_path) None.

(** Lines 182-203: everything before the first external command. *)
Definition materialize (config : yaml) : M (project_paths * (Path * Path)) :=
  paths <- derive_paths config ;;
  logging INFO "Initializing project..." ;;
  create_directories (project_dir_of paths) (template_dir_of paths) ;;
  outputs <- write_outputs (project_dir_of paths) (template_dir_of paths) ;;
  ret (paths, outputs).

Definition initialize_project (config : yaml) : M unit :=
  made <- materialize config ;;
  build_and_package config (project_dir_of made.1) (venv_dir_of made.1)
    made.2.1 made.2.2 ;;
  logging INFO "Project initialization complete".

(** *** The entry point *)

(** Modelled from the spec: the [__main__] block of the script is cut off
    inside the call [load_config(args.config_file]; what follows the load,
    the run of the workflow on the loaded configuration, is taken from the
    contract of the Workflow Runner. *)
Definition main (config_file : string) : M unit :=
  config <- load_config config_file ;;
  initialize_project config.

(** ** Vocabulary of the properties *)

Definition subdirectories : list string :=
  ["modules"; "services"; "caching"; "tests"; "templates"].

(** The process runs in an existing directory of a well-formed tree. *)
Definition sane (w : world) : Prop :=
  well_formed (files w) /\ stat (files w) cwd = Some Dir.

(** What the reset leaves at [rel] below the project directory. *)
Definition subdir_at (rel : list string) : option node :=
  match rel with
  | [] => Some Dir
  | [n] => if bool_decide (n ∈ subdirectories) then Some Dir else None
  | _ => None
  end.

(** The five directories made below [l], in the order of the script. *)
Definition with_subdirectories (l : location) (t : tree) : tree :=
  foldl (fun t' n => <[l ++ [n] := Dir]> t') t subdirectories.

(** The three template files written into the directory at [l]. *)
Definition with_templates (l : location) (t : tree) : tree :=
  <[l ++ ["redzer_installer_template.iss"]
    := File (write_newlines linesep redzer_installer_content)]>
    (<[l ++ ["redzer_template.spec"]
       := File (write_newlines linesep redzer_spec_content)]>
       (<[l ++ ["setup_template.py"]
          := File (write_newlines linesep setup_content)]> t)).

(** What [create_directories] leaves at [name] in [templates/]. *)
Definition template_at (name : string) : option node :=
  if decide (name = "setup_template.py")
  then Some (File (write_newlines linesep setup_content))
  else if decide (name = "redzer_template.spec")
  then Some (File (write_newlines linesep redzer_spec_content))
  else if decide (name = "redzer_installer_template.iss")
  then Some (File (write_newlines linesep redzer_installer_content))
  else None.

(** What [create_directories] leaves at [rel] below the project
    directory: the five subdirectories and the three templates. *)
Definition scaffold_at (rel : list string) : option node :=
  match rel with
  | [d; name] => if decide (d = "templates") then template_at name else None
  | _ => subdir_at rel
  end.

(** A configuration whose fields, where present, are strings. *)
Definition record (fields : gmap string string) : yaml := YMap (YStr <$> fields).

(** What a successful [mkdir] at [l] may change: [l] is a directory
    afterwards, only [l] and locations above it are touched, nothing is
    lost and only directories are gained. *)
Definition grows (l : location) (t t' : tree) : Prop :=
  stat t' l = Some Dir
  /\ (forall k, is_prefix k l = false -> t' !! k = t !! k)
  /\ (forall k v, t !! k = Some v -> t' !! k = Some v)
  /\ (forall k v, t' !! k = Some v -> t !! k = Some v \/ v = Dir).

Definition created_log : level * string :=
  (INFO, "Created project directory structure").

Definition removing_log (p : Path) : level * string :=
  (INFO, "Removing existing project directory: " +:+ str p).

(** A computation that spawns no external command. *)
Definition quiet {A} (m : M A) : Prop :=
  forall w o w', m w = (o, w') -> calls w' = calls w.

(** A computation that never ends the process through [exit]. *)
Definition no_exit {A} (m : M A) : Prop :=
  forall w c w', m w <> (Raise (SystemExit c), w').

Definition is_file (t : tree) (l : location) : Prop :=
  exists bytes, t !! l = Some (File bytes).

(** Two locations hold regular files of the same bytes. *)
Definition same_bytes (t : tree) (a b : location) : Prop :=
  exists bytes, t !! a = Some (File bytes) /\ t !! b = Some (File bytes).

(** The six files of the workflow below the project directory [pd], with
    [name] as the stem of the build-spec and installer-script names. *)
Definition files_named (name : string) (pd : location) (t : tree) : Prop :=
  is_file t (pd ++ ["setup.py"])
  /\ is_file t (pd ++ [name +:+ ".spec"])
  /\ is_file t (pd ++ [name +:+ "_installer.iss"])
  /\ is_file t (pd ++ ["templates"; "setup_template.py"])
  /\ is_file t (pd ++ ["templates"; name +:+ "_template.spec"])
  /\ is_file t (pd ++ ["templates"; name +:+ "_installer_template.iss"]).

(** The five calls of lines 206-223, for the project directory, the
    environment directory, the requirements file of the configuration and
    the [PATH] of the process. *)
Definition workflow_calls (project_dir venv_dir : Path) (requirements old_path : string)
  : list call :=
  let env :=
    <["PATH" := str (joinpath venv_dir "Scripts") +:+ ";" +:+ old_path]>
      (<["VIRTUAL_ENV" := str venv_dir]> environ) in
  [ mkCall ("python -m venv " +:+ str venv_dir) None;
    mkCall (str (Scripts venv_dir "activate") +:+ " && " +:+
            str (Scripts venv_dir "pip") +:+ " install -r " +:+
            str (joinpath project_dir requirements)) (Some env);
    mkCall (str (Scripts venv_dir "activate") +:+ " && " +:+
            str (Scripts venv_dir "pip") +:+ " install pyinstaller") (Some env);
    mkCall (str (Scripts venv_dir "pyinstaller") +:+ " " +:+
            str (joinpath project_dir "redzer.spec")) (Some env);
    mkCall ("ISCC " +:+ str (joinpath project_dir "redzer_installer.iss")) None ].

(** The three output files written at the project root [l]. *)
Definition with_outputs (l : location) (t : tree) : tree :=
  <[l ++ ["redzer_installer.iss"]
    := File (write_newlines linesep redzer_installer_content)]>
    (<[l ++ ["redzer.spec"] := File (write_newlines linesep redzer_spec_content)]>
       (<[l ++ ["setup.py"] := File (write_newlines linesep setup_content)]> t)).

(** What the file-writing steps leave at [name] at the project root, where
    it is one of the three outputs. *)
Definition output_at (name : string) : option node :=
  if decide (name = "setup.py")
  then Some (File (write_newlines linesep setup_content))
  else if decide (name = "redzer.spec")
  then Some (File (write_newlines linesep redzer_spec_content))
  else if decide (name = "redzer_installer.iss")
  then Some (File (write_newlines linesep redzer_installer_content))
  else None.

(** What the file-writing steps leave at [rel] below the project
    directory: the five subdirectories, the three templates and the three
    outputs. *)
Definition project_at (rel : list string) : option node :=
  match rel with
  | [name] =>
      match output_at name with
      | Some f => Some f
      | None => scaffold_at rel
      end
  | _ => scaffold_at rel
  end.

(** A path that names its location as it is written: no component is
    [..], whose meaning is outside the model of the filesystem. *)
Definition plain (p : Path) : Prop := ".." ∉ parts p.

(** A name that a filesystem takes for a new entry: not empty, not [.] or
    [..], without a slash or a null character, of at most 255 bytes. *)
Definition ordinary (n : string) : Prop :=
  n <> EmptyString /\ n <> "." /\ n <> ".."
  /\ mentions "/" n = false /\ mentions nul n = false
  /\ (String.length n <= 255)%nat.

(** A path that the system takes as it is written: it is made of ordinary
    names, and is short enough for the longest name that the reset appends
    to it (a path string holds fewer than 4096 bytes). *)
Definition portable (p : Path) : Prop :=
  Forall ordinary (parts p)
  /\ (String.length (str p) + String.length "/templates" < 4096)%nat.

#[global] Instance portable_dec p : Decision (portable p).
Proof. unfold portable, ordinary. apply _. Defined.

(** Every external command writes UTF-8 to both of its streams. *)
Definition decodable : Prop :=
  forall n cmd env t,
    utf8_valid (stdout (subprocess_run n cmd env t)) = true
    /\ utf8_valid (stderr (subprocess_run n cmd env t)) = true.

(** The two records [run_command] logs for a finished command. *)
Definition command_log (cmd : string) (r : completed) : list (level * string) :=
  if decide (returncode r = 0)
  then [(INFO, "Command succeeded: " +:+ cmd); (INFO, stdout r)]
  else [(ERROR, "Command failed: " +:+ cmd); (ERROR, stderr r)].

(** The stream [run_command] decodes: standard output of a command that
    succeeded, standard error of one that failed. *)
Definition logged_stream (r : completed) : string :=
  if decide (returncode r = 0) then stdout r else stderr r.

(** A computation that, outside [l] and what lies below it, removes and
    overwrites nothing and adds at most directories. *)
Definition keeps_outside {A} (l : location) (m : M A) : Prop :=
  forall w o w' k,
    m w = (o, w') -> is_prefix l k = false ->
    (forall v, files w !! k = Some v -> files w' !! k = Some v)
    /\ (forall v, files w' !! k = Some v -> files w !! k = Some v \/ v = Dir).

(** ** Sample inputs *)

(** A configuration for a project called demo. *)
Definition demo_fields : gmap string string :=
  list_to_map [ ("project_name", "demo"); ("project_dir", "/work");
                ("venv_dir", "venv"); ("requirements_file", "requirements.txt") ].

Definition demo_config : yaml := record demo_fields.

(** The same without the [venv_dir] field. *)
Definition demo_fields_without_venv : gmap string string := delete "venv_dir" demo_fields.

Definition demo_environ : environment := {[ "PATH" := "/usr/bin" ]}.

Definition empty_world : world := mkWorld ∅ [] [].

(** A tree in which the project directory exists and holds a stray file. *)
Definition used_tree : tree :=
  list_to_map [ (["work"], Dir); (["work"; "demo"], Dir);
                (["work"; "demo"; "stray.txt"], File "left over");
                (["work"; "demo"; "old"], Dir);
                (["work"; "demo"; "old"; "notes"], File "older") ].

Definition used_world : world := mkWorld used_tree [] [].

(** A tree with an empty configuration file. *)
Definition configured_world : world :=
  mkWorld (list_to_map [ (["config.yaml"], File EmptyString) ]) [] [].

(** External commands that all succeed silently and touch nothing. *)
Definition all_succeed (n : nat) (cmd : string) (env : option environment) (t : tree)
  : completed := mkCompleted 0 EmptyString EmptyString t.

(** The first command (the environment creation) fails and its error
    stream is the single byte 0xFF, which is not UTF-8; the others
    succeed. *)
Definition venv_fails_undecodable (n : nat) (cmd : string) (env : option environment)
    (t : tree) : completed :=
  match n with
  | O => mkCompleted 1 EmptyString (String (ascii_of_nat 255) EmptyString) t
  | _ => mkCompleted 0 EmptyString EmptyString t
  end.

(** The first command fails with a readable message; the others succeed. *)
Definition venv_fails (n : nat) (cmd : string) (env : option environment) (t : tree)
  : completed :=
  match n with
  | O => mkCompleted 1 EmptyString "Error: no python" t
  | _ => mkCompleted 0 EmptyString EmptyString t
  end.

(** The project directory of [demo_config] and the paths derived from it. *)
Definition demo_dir : Path := mkPath true ["work"; "demo"].

Definition demo_paths : project_paths :=
  mkPaths demo_dir (mkPath true ["work"; "demo"; "templates"])
    (mkPath true ["work"; "demo"; "venv"]).

(** [yaml.safe_load] of an empty document is [None]. *)
Definition load_null (bytes : string) : loaded := Parsed YNull.

(** The demo configuration without the [requirements_file] field. *)
Definition demo_fields_without_requirements : gmap string string :=
  delete "requirements_file" demo_fields.

(** The demo configuration with a key the script does not know. *)
Definition demo_fields_with_colour : gmap string string :=
  <["colour" := "red"]> demo_fields.

(** A configuration whose project name and environment directory are
    absolute paths. *)
Definition absolute_fields : gmap string string :=
  list_to_map [ ("project_name", "/srv/app"); ("project_dir", "/work");
                ("venv_dir", "/opt/venv"); ("requirements_file", "requirements.txt") ].

(** A configuration whose project directory is the working directory. *)
Definition dot_fields : gmap string string :=
  list_to_map [ ("project_name", "."); ("project_dir", ".");
                ("venv_dir", "venv"); ("requirements_file", "requirements.txt") ].

(** A tree in which a regular file stands where the project directory
    should be. *)
Definition blocked_world : world :=
  mkWorld (list_to_map [ (["work"], Dir); (["work"; "demo"], File "in the way") ]) [] [].

(** A home directory that holds the configuration file, beside another
    directory. *)
Definition home_world : world :=
  mkWorld (list_to_map [ (["home"], Dir); (["home"; "config.yaml"], File "x");
                         (["home"; "src"], Dir); (["home"; "src"; "cli.py"], File "y");
                         (["etc"], Dir) ]) [] [].

(** External commands that all fail with a readable message. *)
Definition all_fail (n : nat) (cmd : string) (env : option environment) (t : tree)
  : completed := mkCompleted 2 "partial output" "it failed" t.

(** External commands that succeed and print the byte 0xFF. *)
Definition succeed_undecodable (n : nat) (cmd : string) (env : option environment)
    (t : tree) : completed :=
  mkCompleted 0 (String (ascii_of_nat 255) EmptyString) EmptyString t.

(** [yaml.safe_load] that rejects every document. *)
Definition load_nothing (bytes : string) : loaded := Malformed.

(** [yaml.safe_load] behind a UTF-8 codec, on files that hold no document:
    the codec refuses what is not UTF-8. *)
Definition load_utf8 (bytes : string) : loaded :=
  if utf8_valid bytes then Parsed YNull else Undecodable.

(** A home directory whose configuration file holds a byte that is not
    UTF-8. *)
Definition garbled_world : world :=
  mkWorld (list_to_map [ (["home"], Dir);
                         (["home"; "config.yaml"],
                          File (String (ascii_of_nat 255) EmptyString)) ]) [] [].

(** A tree in which a regular file stands where the parent of the project
    directory should be. *)
Definition walled_world : world :=
  mkWorld (list_to_map [ (["work"], File "not a directory") ]) [] [].

(** A configuration whose project directory lies in the working
    directory. *)
Definition local_fields : gmap string string :=
  list_to_map [ ("project_name", "demo"); ("project_dir", ".");
                ("venv_dir", "venv"); ("requirements_file", "requirements.txt") ].

(** A path for a file of notes, and two lines of text. *)
Definition notes_path : Path := mkPath true ["work"; "notes.txt"].

Definition notes : string := unlines ["one"; "two"].

(** ** The monad *)

Lemma bind_Ret {A B} (m : M A) (k : A -> M B) w a w1 :
  m w = (Ret a, w1) -> bind m k w = k a w1.
Proof. intros H. unfold bind. by rewrite H. Qed.

Lemma bind_Raise {A B} (m : M A) (k : A -> M B) w e w1 :
  m w = (Raise e, w1) -> bind m k w = (Raise e, w1).
Proof. intros H. unfold bind. by rewrite H. Qed.

Lemma bind_Ret_inv {A B} (m : M A) (k : A -> M B) w b w' :
  bind m k w = (Ret b, w') ->
  exists a w1, m w = (Ret a, w1) /\ k a w1 = (Ret b, w').
Proof.
  unfold bind. destruct (m w) as [[a|e] w1]; [eauto | discriminate].
Qed.

(** A run is determined by its outcome and the world it leaves. *)
Lemma run_Ret {A} (m : M A) (w : world) (a : A) :
  (m w).1 = Ret a -> m w = (Ret a, (m w).2).
Proof. intros <-. apply surjective_pairing. Qed.

Lemma run_Raise {A} (m : M A) (w : world) (e : exn) :
  (m w).1 = Raise e -> m w = (Raise e, (m w).2).
Proof. intros <-. apply surjective_pairing. Qed.

(** ** Paths and locations *)

Lemma mkPath_eta p : mkPath (anchored p) (parts p) = p.
Proof. by destruct p. Qed.

Lemma resolve_child p n :
  starts_with_slash n = false -> names_of n = [n] ->
  resolve (joinpath p n) = resolve p ++ [n].
Proof.
  intros Hs Hn. unfold joinpath, PurePath, resolve. simpl.
  rewrite Hs, Hn. simpl. destruct (anchored p); [done | by rewrite app_assoc].
Qed.

Lemma resolve_nonempty p : parts p <> [] -> resolve p <> [].
Proof.
  unfold resolve. destruct (anchored p); [done |].
  intros Hp Hl. by apply app_eq_nil in Hl as [_ ?].
Qed.

Lemma resolve_snoc a rn x :
  resolve (mkPath a (rev (x :: rn))) = resolve (mkPath a (rev rn)) ++ [x].
Proof.
  unfold resolve. simpl. destruct a; [done | by rewrite app_assoc].
Qed.

Lemma parent_snoc l x : parent (l ++ [x]) = l.
Proof. apply removelast_last. Qed.

Lemma is_prefix_spec l k : is_prefix l k = true <-> exists r, k = l ++ r.
Proof.
  revert k. induction l as [|a l IH]; intros k; simpl.
  - split; [eauto | done].
  - destruct k as [|b k].
    + split; [done | intros [r Hr]; discriminate].
    + rewrite andb_true_iff, bool_decide_eq_true, IH. split.
      * intros [-> [r ->]]. by exists r.
      * intros [r Hr]. injection Hr as -> ->. eauto.
Qed.

Lemma is_prefix_app l r : is_prefix l (l ++ r) = true.
Proof. apply is_prefix_spec. eauto. Qed.

Lemma is_prefix_refl l : is_prefix l l = true.
Proof. apply is_prefix_spec. exists []. by rewrite app_nil_r. Qed.

Lemma is_prefix_longer l r : r <> [] -> is_prefix (l ++ r) l = false.
Proof.
  intros Hr. apply not_true_is_false. intros [s Hs]%is_prefix_spec.
  rewrite <- app_assoc in Hs. rewrite <- (app_nil_r l) in Hs at 1.
  apply app_inv_head in Hs. symmetry in Hs. by apply app_eq_nil in Hs as [? _].
Qed.

Lemma is_prefix_parent k l : is_prefix k (parent l) = true -> is_prefix k l = true.
Proof.
  destruct l as [|a l'] using rev_ind; [done |].
  rewrite parent_snoc. intros [r ->]%is_prefix_spec.
  apply is_prefix_spec. exists (r ++ [a]). by rewrite app_assoc.
Qed.

Lemma stat_lookup t l : l <> [] -> stat t l = t !! l.
Proof. by destruct l. Qed.

Lemma stat_snoc t l x : stat t (l ++ [x]) = t !! (l ++ [x]).
Proof. apply stat_lookup. by destruct l. Qed.

(** In a well-formed tree nothing lies below a missing location. *)
Lemma well_formed_below t l r :
  well_formed t -> stat t l = None -> t !! (l ++ r) = None.
Proof.
  intros Hwf Hl. induction r as [|x r IH] using rev_ind.
  - rewrite app_nil_r. destruct l; [done | exact Hl].
  - destruct (t !! (l ++ r ++ [x])) as [v|] eqn:Hv; [| done].
    apply Hwf in Hv as [_ Hp]. simpl in Hp.
    rewrite app_assoc, parent_snoc in Hp.
    destruct (l ++ r) eqn:E; [| simpl in Hp; congruence].
    apply app_eq_nil in E as [-> ->]. done.
Qed.

Lemma well_formed_parent t l v :
  well_formed t -> t !! l = Some v -> stat t (parent l) = Some Dir.
Proof. intros Hwf Hv. by apply Hwf in Hv as [_ ?]. Qed.

Lemma prune_lookup l t k :
  prune l t !! k = if is_prefix l k then None else t !! k.
Proof.
  unfold prune. destruct (is_prefix l k) eqn:E.
  - apply map_lookup_filter_None_2. right. intros x _. simpl. by rewrite E.
  - destruct (t !! k) as [v|] eqn:Hv.
    + by apply map_lookup_filter_Some_2.
    + apply map_lookup_filter_None_2. by left.
Qed.

(** ** Making directories *)

Lemma os_mkdir_Ret l t t' :
  os_mkdir l t = Ret t' ->
  l <> [] /\ t !! l = None /\ stat t (parent l) = Some Dir /\ t' = <[l := Dir]> t.
Proof.
  unfold os_mkdir. destruct (stat t l) eqn:Hl; [done |].
  destruct (stat t (parent l)) as [[c|]|] eqn:Hp; try done.
  intros [= <-]. destruct l; [done |]. done.
Qed.

Lemma os_mkdir_fresh l t :
  stat t l = None -> stat t (parent l) = Some Dir ->
  os_mkdir l t = Ret (<[l := Dir]> t).
Proof. intros Hl Hp. unfold os_mkdir. by rewrite Hl, Hp. Qed.

Lemma os_mkdir_missing l t l' :
  os_mkdir l t = Raise (FileNotFoundError l') -> stat t l = None.
Proof.
  unfold os_mkdir. destruct (stat t l) eqn:Hl; [done |].
  by destruct (stat t (parent l)) as [[c|]|].
Qed.

Lemma grows_insert l t :
  l <> [] -> t !! l = None -> grows l t (<[l := Dir]> t).
Proof.
  intros Hne Hl. repeat split.
  - rewrite stat_lookup by done. apply lookup_insert_eq.
  - intros k Hk. apply lookup_insert_ne. intros ->.
    by rewrite is_prefix_refl in Hk.
  - intros k v Hv. rewrite lookup_insert_ne; [done | congruence].
  - intros k v. rewrite lookup_insert. case_decide; [right | left]; congruence.
Qed.

Lemma grows_same l t : stat t l = Some Dir -> grows l t t.
Proof. intros Hl. repeat split; eauto. Qed.

Lemma grows_step l x t t1 t' :
  grows l t t1 -> grows (l ++ [x]) t1 t' -> grows (l ++ [x]) t t'.
Proof.
  intros (_ & Hout & Hkeep & Hnew) (Hd & Hout' & Hkeep' & Hnew').
  repeat split; [done | | eauto |].
  - intros k Hk. rewrite Hout' by done. apply Hout.
    destruct (is_prefix k l) eqn:Hp; [| done].
    assert (is_prefix k (l ++ [x]) = true)
      by (apply is_prefix_parent; by rewrite parent_snoc).
    congruence.
  - intros k v Hv. apply Hnew' in Hv as [Hv | ->]; [| by right].
    by apply Hnew.
Qed.

Lemma mkdir_plain_Ret exist_ok l t t' :
  mkdir_plain exist_ok l t = Ret t' ->
  os_mkdir l t = Ret t' \/ (exist_ok = true /\ t' = t /\ stat t l = Some Dir).
Proof.
  unfold mkdir_plain. destruct (os_mkdir l t) as [t0|e]; [intros [= <-]; by left |].
  destruct e; try done;
    (destruct exist_ok; [| done]; simpl; unfold is_dir; case_bool_decide; [| done];
     intros [= <-]; by right).
Qed.

Lemma stat_insert_parent t l v :
  l <> [] -> stat (<[l := v]> t) (parent l) = stat t (parent l).
Proof.
  destruct l as [|x q _] using rev_ind; [done |]. intros _.
  rewrite parent_snoc. destruct q as [|b q']; [done |]. simpl.
  apply lookup_insert_ne. intros E. apply (f_equal length) in E.
  simpl in E. rewrite length_app in E. simpl in E. lia.
Qed.

Lemma os_mkdir_grows l t t' :
  os_mkdir l t = Ret t' ->
  grows l t t' /\ stat t l = None /\ stat t' (parent l) = Some Dir.
Proof.
  intros (Hne & Hl & Hp & ->)%os_mkdir_Ret.
  split; [by apply grows_insert |]. split; [by rewrite stat_lookup |].
  by rewrite stat_insert_parent.
Qed.

Lemma mkdir_plain_grows exist_ok l t t' :
  mkdir_plain exist_ok l t = Ret t' ->
  grows l t t'
  /\ (exist_ok = false -> stat t l = None /\ stat t' (parent l) = Some Dir).
Proof.
  intros [H | (-> & -> & Hd)]%mkdir_plain_Ret.
  - apply os_mkdir_grows in H as (? & ? & ?). done.
  - split; [by apply grows_same | done].
Qed.

Lemma mkdir_parents_grows exist_ok anch rnames t t' :
  mkdir_parents exist_ok anch rnames t = Ret t' ->
  grows (resolve (mkPath anch (rev rnames))) t t'
  /\ (exist_ok = false ->
      stat t (resolve (mkPath anch (rev rnames))) = None
      /\ stat t' (parent (resolve (mkPath anch (rev rnames)))) = Some Dir).
Proof.
  revert exist_ok t t'. induction rnames as [|x rn IH]; intros exist_ok t t'.
  - simpl. set (l := resolve (mkPath anch [])).
    destruct (os_mkdir l t) as [t0|e] eqn:E.
    + intros [= <-]. apply os_mkdir_grows in E as (? & ? & ?). done.
    + destruct e; try done;
        (destruct exist_ok; [| done]; simpl; unfold is_dir; case_bool_decide; [| done];
         intros [= <-]; split; [by apply grows_same | done]).
  - cbn [mkdir_parents]. rewrite resolve_snoc.
    set (l := resolve (mkPath anch (rev rn))) in *.
    destruct (os_mkdir (l ++ [x]) t) as [t0|e] eqn:E.
    + intros [= <-]. apply os_mkdir_grows in E as (? & ? & ?). done.
    + destruct e; try done;
        try (destruct exist_ok; [| done]; simpl; unfold is_dir; case_bool_decide; [| done];
             intros [= <-]; split; [by apply grows_same | done]).
      apply os_mkdir_missing in E.
      destruct (mkdir_parents true anch rn t) as [t1|e1] eqn:E1; [| done].
      apply IH in E1 as [Hg _]. intros [Hg' Hp]%mkdir_plain_grows.
      split; [by eapply grows_step |]. intros He. split; [done | by apply Hp].
Qed.

Lemma mkdir_parents_direct exist_ok anch rnames t t' :
  os_mkdir (resolve (mkPath anch (rev rnames))) t = Ret t' ->
  mkdir_parents exist_ok anch rnames t = Ret t'.
Proof. intros H. destruct rnames; cbn [mkdir_parents]; by rewrite H. Qed.

Lemma snoc_inj (l : location) a r : l ++ [a] = l ++ r -> r = [a].
Proof. intros H. by apply app_inv_head in H. Qed.

Lemma snoc_ne_self (l : location) a : l ++ [a] <> l.
Proof. intros H. rewrite <- (app_nil_r l) in H at 2. by apply snoc_inj in H. Qed.

Lemma stat_insert_child t l a v : stat (<[l ++ [a] := v]> t) l = stat t l.
Proof.
  destruct l as [|b l']; [done |]. simpl.
  apply lookup_insert_ne. apply (snoc_ne_self (b :: l')).
Qed.

Lemma lookup_insert_child (t : tree) l a n v :
  <[l ++ [a] := v]> t !! (l ++ [n]) = if decide (a = n) then Some v else t !! (l ++ [n]).
Proof.
  rewrite lookup_insert. repeat case_decide; try done; subst; try done.
  by apply snoc_inj in H as [= ->].
Qed.

Lemma mkdir_child l n t :
  stat t l = Some Dir -> t !! (l ++ [n]) = None ->
  mkdir_plain false (l ++ [n]) t = Ret (<[l ++ [n] := Dir]> t).
Proof.
  intros Hl Hn. unfold mkdir_plain. rewrite os_mkdir_fresh; [done | |].
  - by rewrite stat_snoc.
  - by rewrite parent_snoc.
Qed.

Lemma Path_mkdir_child p n w :
  starts_with_slash n = false -> names_of n = [n] ->
  stat (files w) (resolve p) = Some Dir ->
  files w !! (resolve p ++ [n]) = None ->
  Path_mkdir false (joinpath p n) w
  = (Ret tt, mkWorld (<[resolve p ++ [n] := Dir]> (files w)) (logs w) (calls w)).
Proof.
  intros Hs Hn Hl Hc. unfold Path_mkdir, lift_tree.
  rewrite resolve_child by done. by rewrite mkdir_child.
Qed.

Lemma with_subdirectories_below l t rel :
  stat t l = Some Dir -> (forall r, r <> [] -> t !! (l ++ r) = None) ->
  stat (with_subdirectories l t) (l ++ rel) = subdir_at rel.
Proof.
  intros Hl Hbelow. unfold with_subdirectories. simpl.
  destruct rel as [|n [|m rel]].
  - rewrite app_nil_r. by rewrite !stat_insert_child.
  - rewrite stat_snoc. simpl.
    rewrite !lookup_insert_child. rewrite Hbelow by done.
    repeat (destruct (decide (_ = n)) as [<-|?]; [by vm_compute |]).
    rewrite bool_decide_eq_false_2; [done |].
    unfold subdirectories. intros Hin.
    repeat (apply elem_of_cons in Hin as [->|Hin]; [done |]).
    by apply elem_of_nil in Hin.
  - rewrite stat_lookup by (by destruct l).
    rewrite !lookup_insert_ne by (intros E; by apply snoc_inj in E).
    by apply Hbelow.
Qed.

Lemma with_subdirectories_outside l t k :
  is_prefix l k = false -> with_subdirectories l t !! k = t !! k.
Proof.
  intros Hk. unfold with_subdirectories. simpl.
  rewrite !lookup_insert_ne; [done | ..]; intros <-; by rewrite is_prefix_app in Hk.
Qed.

Lemma with_subdirectories_keeps l t k v :
  t !! k = Some v -> (forall r, r <> [] -> t !! (l ++ r) = None) ->
  with_subdirectories l t !! k = Some v.
Proof.
  intros Hv Hbelow. unfold with_subdirectories. simpl.
  rewrite !lookup_insert_ne; [done | ..]; intros <-; by rewrite Hbelow in Hv.
Qed.

(** The five [mkdir] calls on a project directory with nothing under it. *)
Lemma mkdir_subdirectories p w :
  stat (files w) (resolve p) = Some Dir ->
  (forall r, r <> [] -> files w !! (resolve p ++ r) = None) ->
  (Path_mkdir false (joinpath p "modules") ;;
   Path_mkdir false (joinpath p "services") ;;
   Path_mkdir false (joinpath p "caching") ;;
   Path_mkdir false (joinpath p "tests") ;;
   Path_mkdir false (joinpath p "templates") ;;
   logging INFO "Created project directory structure") w
  = (Ret tt, mkWorld (with_subdirectories (resolve p) (files w))
               (logs w ++ [(INFO, "Created project directory structure")]) (calls w)).
Proof.
  intros Hl Hbelow.
  repeat (erewrite bind_Ret;
    [| apply Path_mkdir_child; [done | done | simpl; by rewrite ?stat_insert_child |
       simpl; rewrite ?lookup_insert_ne by (intros E; by apply snoc_inj in E);
       by apply Hbelow]]).
  done.
Qed.

(** ** The directory reset *)

Lemma resolve_rev_rev p :
  resolve (mkPath (anchored p) (rev (rev (parts p)))) = resolve p.
Proof. by rewrite rev_involutive, mkPath_eta. Qed.

Lemma is_prefix_parent_false l : l <> [] -> is_prefix l (parent l) = false.
Proof.
  destruct l as [|x q _] using rev_ind; [done |]. intros _.
  rewrite parent_snoc. by apply is_prefix_longer.
Qed.

Lemma empty_out_lookup l t k :
  empty_out l t !! k = if decide (k = l) then t !! k
                       else if is_prefix l k then None else t !! k.
Proof.
  unfold empty_out. destruct (decide (k = l)) as [->|Hne].
  - destruct (t !! l) as [v|] eqn:Hv.
    + apply map_lookup_filter_Some_2; [done | by right].
    + apply map_lookup_filter_None_2. by left.
  - destruct (is_prefix l k) eqn:E.
    + apply map_lookup_filter_None_2. right. intros x _ [H|H]; simpl in H; congruence.
    + destruct (t !! k) as [v|] eqn:Hv.
      * apply map_lookup_filter_Some_2; [done | by left].
      * apply map_lookup_filter_None_2. by left.
Qed.

Lemma stat_prune_parent l t : l <> [] -> stat (prune l t) (parent l) = stat t (parent l).
Proof.
  intros Hne. destruct (parent l) eqn:E; [done |]. simpl.
  rewrite prune_lookup, <- E. by rewrite is_prefix_parent_false.
Qed.

Lemma unnamed_exists p w : sane w -> parts p = [] -> stat (files w) (resolve p) = Some Dir.
Proof.
  intros [_ Hcwd] Hp. unfold resolve. rewrite Hp.
  destruct (anchored p); [done | by rewrite app_nil_r].
Qed.

(** A run of [make_tree] that returns made the directory, with whatever
    parents were missing, and the five subdirectories. *)
Lemma make_tree_Ret p w w' :
  (forall r, r <> [] -> files w !! (resolve p ++ r) = None) ->
  make_tree p w = (Ret tt, w') ->
  exists t1,
    mkdir_parents false (anchored p) (rev (parts p)) (files w) = Ret t1
    /\ w' = mkWorld (with_subdirectories (resolve p) t1)
              (logs w ++ [created_log]) (calls w).
Proof.
  intros Hbelow H. unfold make_tree in H.
  apply bind_Ret_inv in H as ([] & w1 & H1 & H).
  unfold Path_mkdir, lift_tree in H1.
  destruct (mkdir_parents false (anchored p) (rev (parts p)) (files w))
    as [t1|e] eqn:E; [| done].
  injection H1 as <-. exists t1. split; [done |].
  apply mkdir_parents_grows in E as [(Hd & Hout & _) _].
  rewrite resolve_rev_rev in Hd, Hout.
  rewrite mkdir_subdirectories in H; [by injection H as <- | done |].
  intros r Hr. simpl. rewrite Hout by (by apply is_prefix_longer). by apply Hbelow.
Qed.

(** [make_tree] where the directory is missing and its parent is there. *)
Lemma make_tree_fresh p w :
  stat (files w) (resolve p) = None ->
  stat (files w) (parent (resolve p)) = Some Dir ->
  (forall r, r <> [] -> files w !! (resolve p ++ r) = None) ->
  make_tree p w
  = (Ret tt, mkWorld (with_subdirectories (resolve p) (<[resolve p := Dir]> (files w)))
               (logs w ++ [created_log]) (calls w)).
Proof.
  intros Hl Hp Hbelow. unfold make_tree.
  erewrite bind_Ret; cycle 1.
  { unfold Path_mkdir, lift_tree. erewrite mkdir_parents_direct; [done |].
    rewrite resolve_rev_rev. by apply os_mkdir_fresh. }
  assert (resolve p <> []) as Hne by (intros E; by rewrite E in Hl).
  rewrite mkdir_subdirectories; [done | |]; simpl.
  - rewrite stat_lookup by done. apply lookup_insert_eq.
  - intros r Hr. rewrite lookup_insert_ne; [by apply Hbelow |].
    intros E. rewrite <- (app_nil_r (resolve p)) in E at 1.
    apply app_inv_head in E. by subst.
Qed.

Lemma Path_exists_eq p w :
  Path_exists p w = (Ret (bool_decide (is_Some (stat (files w) (resolve p)))), w).
Proof. done. Qed.

Lemma logging_eq lv msg w :
  logging lv msg w = (Ret tt, mkWorld (files w) (logs w ++ [(lv, msg)]) (calls w)).
Proof. done. Qed.

Lemma rmtree_dir p w :
  stat (files w) (resolve p) = Some Dir -> parts p <> [] ->
  rmtree p w = (Ret tt, mkWorld (prune (resolve p) (files w)) (logs w) (calls w)).
Proof.
  intros Hl Hp. unfold rmtree, get_files, bind, ret. simpl. rewrite Hl.
  unfold set_files. simpl. by destruct (decide (parts p = [])).
Qed.

Lemma rmtree_unnamed p w :
  stat (files w) (resolve p) = Some Dir -> parts p = [] ->
  rmtree p w
  = (Raise (OSError (resolve p)),
     mkWorld (empty_out (resolve p) (files w)) (logs w) (calls w)).
Proof.
  intros Hl Hp. unfold rmtree, get_files, bind, ret. simpl. rewrite Hl.
  unfold set_files. simpl. by destruct (decide (parts p = [])).
Qed.

Lemma rmtree_file p w c :
  stat (files w) (resolve p) = Some (File c) ->
  rmtree p w = (Raise (NotADirectoryError (resolve p)), w).
Proof.
  intros Hl. unfold rmtree, get_files, bind, ret. simpl. by rewrite Hl.
Qed.

Lemma reset_tree_missing p w :
  stat (files w) (resolve p) = None -> reset_tree p w = make_tree p w.
Proof.
  intros Hl. unfold reset_tree. erewrite bind_Ret by apply Path_exists_eq.
  rewrite Hl. rewrite bool_decide_eq_false_2 by (by intros [? ?]).
  by erewrite bind_Ret by done.
Qed.

Lemma reset_tree_existing p w :
  stat (files w) (resolve p) = Some Dir -> parts p <> [] ->
  reset_tree p w
  = make_tree p (mkWorld (prune (resolve p) (files w))
                   (logs w ++ [removing_log p]) (calls w)).
Proof.
  intros Hl Hp. unfold reset_tree. erewrite bind_Ret by apply Path_exists_eq.
  rewrite Hl. rewrite bool_decide_eq_true_2 by eauto.
  erewrite bind_Ret; [done |].
  erewrite bind_Ret by apply logging_eq. by rewrite rmtree_dir.
Qed.

Lemma reset_tree_file p w c :
  stat (files w) (resolve p) = Some (File c) ->
  reset_tree p w
  = (Raise (NotADirectoryError (resolve p)),
     mkWorld (files w) (logs w ++ [removing_log p]) (calls w)).
Proof.
  intros Hl. unfold reset_tree. erewrite bind_Ret by apply Path_exists_eq.
  rewrite Hl. rewrite bool_decide_eq_true_2 by eauto.
  erewrite bind_Raise; [done |].
  erewrite bind_Ret by apply logging_eq. by erewrite rmtree_file.
Qed.

Lemma reset_tree_unnamed p w :
  stat (files w) (resolve p) = Some Dir -> parts p = [] ->
  reset_tree p w
  = (Raise (OSError (resolve p)),
     mkWorld (empty_out (resolve p) (files w)) (logs w ++ [removing_log p]) (calls w)).
Proof.
  intros Hl Hp. unfold reset_tree. erewrite bind_Ret by apply Path_exists_eq.
  rewrite Hl. rewrite bool_decide_eq_true_2 by eauto.
  erewrite bind_Raise; [done |].
  erewrite bind_Ret by apply logging_eq. by rewrite rmtree_unnamed.
Qed.

(** The reset of a directory that exists, below an existing parent. *)
Lemma reset_tree_again p w :
  stat (files w) (resolve p) = Some Dir ->
  stat (files w) (parent (resolve p)) = Some Dir ->
  parts p <> [] ->
  reset_tree p w
  = (Ret tt,
     mkWorld (with_subdirectories (resolve p)
                (<[resolve p := Dir]> (prune (resolve p) (files w))))
       ((logs w ++ [removing_log p]) ++ [created_log]) (calls w)).
Proof.
  intros Hl Hpar Hp. rewrite reset_tree_existing by done.
  pose proof (resolve_nonempty p Hp) as Hne.
  rewrite make_tree_fresh; [done | ..]; simpl.
  - rewrite stat_lookup by done. rewrite prune_lookup. by rewrite is_prefix_refl.
  - by rewrite stat_prune_parent.
  - intros r _. rewrite prune_lookup. by rewrite is_prefix_app.
Qed.

Lemma lookup_insert_below (t : tree) l r v :
  r <> [] -> <[l := v]> t !! (l ++ r) = t !! (l ++ r).
Proof.
  intros Hr. apply lookup_insert_ne. intros E.
  rewrite <- (app_nil_r l) in E at 1. apply app_inv_head in E. by subst.
Qed.

Lemma lookup_insert_outside (t : tree) l k v :
  is_prefix l k = false -> <[l := v]> t !! k = t !! k.
Proof.
  intros Hk. apply lookup_insert_ne. intros <-. by rewrite is_prefix_refl in Hk.
Qed.

Lemma stat_with_subdirectories_parent l t :
  l <> [] -> stat (with_subdirectories l t) (parent l) = stat t (parent l).
Proof.
  intros Hne. destruct (parent l) eqn:E; [done |]. simpl. rewrite <- E.
  by rewrite with_subdirectories_outside by (by apply is_prefix_parent_false).
Qed.

(** What a reset that returns has done, from a sane world. *)
Lemma reset_tree_Ret p w w' :
  sane w -> reset_tree p w = (Ret tt, w') ->
  parts p <> []
  /\ (forall rel, stat (files w') (resolve p ++ rel) = subdir_at rel)
  /\ stat (files w') (parent (resolve p)) = Some Dir
  /\ (forall k v, is_prefix (resolve p) k = false ->
        files w !! k = Some v -> files w' !! k = Some v)
  /\ calls w' = calls w.
Proof.
  intros Hsane H. pose proof Hsane as [Hwf Hcwd].
  destruct (stat (files w) (resolve p)) as [[c|]|] eqn:Hl.
  - by rewrite (reset_tree_file _ _ c) in H.
  - destruct (decide (parts p = [])) as [Hp|Hp].
    { by rewrite reset_tree_unnamed in H. }
    pose proof (resolve_nonempty p Hp) as Hne.
    assert (stat (files w) (parent (resolve p)) = Some Dir) as Hpar.
    { rewrite stat_lookup in Hl by done. by eapply well_formed_parent. }
    rewrite reset_tree_again in H by done. injection H as <-. simpl.
    split; [done |]. split; [| split; [| split; [| done]]].
    + intros rel. apply with_subdirectories_below.
      * rewrite stat_lookup by done. apply lookup_insert_eq.
      * intros r Hr. rewrite lookup_insert_below by done.
        rewrite prune_lookup. by rewrite is_prefix_app.
    + rewrite stat_with_subdirectories_parent by done.
      by rewrite stat_insert_parent, stat_prune_parent by done.
    + intros k v Hk Hv. rewrite with_subdirectories_outside by done.
      rewrite lookup_insert_outside by done. rewrite prune_lookup. by rewrite Hk.
  - assert (parts p <> []) as Hp.
    { intros Hp. by rewrite (unnamed_exists p w) in Hl. }
    rewrite reset_tree_missing in H by done.
    assert (forall r, r <> [] -> files w !! (resolve p ++ r) = None) as Hbelow.
    { intros r _. by apply well_formed_below. }
    apply make_tree_Ret in H as (t1 & E & ->); [| done].
    apply mkdir_parents_grows in E as [(Hd & Hout & Hkeep & _) Hf].
    destruct Hf as [_ Hpar]; [done |]. rewrite resolve_rev_rev in *. simpl.
    pose proof (resolve_nonempty p Hp) as Hne.
    assert (forall r, r <> [] -> t1 !! (resolve p ++ r) = None) as Hbelow1.
    { intros r Hr. rewrite Hout by (by apply is_prefix_longer). by apply Hbelow. }
    split; [done |]. split; [| split; [| split; [| done]]].
    + intros rel. by apply with_subdirectories_below.
    + by rewrite stat_with_subdirectories_parent by done.
    + intros k v Hk Hv. rewrite with_subdirectories_outside by done. by apply Hkeep.
Qed.

Lemma make_tree_eq p w t1 :
  (forall r, r <> [] -> files w !! (resolve p ++ r) = None) ->
  mkdir_parents false (anchored p) (rev (parts p)) (files w) = Ret t1 ->
  make_tree p w
  = (Ret tt, mkWorld (with_subdirectories (resolve p) t1)
               (logs w ++ [created_log]) (calls w)).
Proof.
  intros Hbelow E. unfold make_tree.
  erewrite bind_Ret; cycle 1.
  { unfold Path_mkdir, lift_tree. by rewrite E. }
  apply mkdir_parents_grows in E as [(Hd & Hout & _) _].
  rewrite resolve_rev_rev in Hd, Hout.
  rewrite mkdir_subdirectories; [done | done |].
  intros r Hr. simpl. rewrite Hout by (by apply is_prefix_longer). by apply Hbelow.
Qed.

(** [mkdir(parents=True)] succeeds where no regular file is in the way. *)
Lemma mkdir_parents_succeeds exist_ok anch rnames t :
  (anch = true \/ stat t cwd = Some Dir) ->
  (forall k c, is_prefix k (resolve (mkPath anch (rev rnames))) = true ->
     stat t k <> Some (File c)) ->
  (exist_ok = true \/ stat t (resolve (mkPath anch (rev rnames))) = None) ->
  exists t', mkdir_parents exist_ok anch rnames t = Ret t'.
Proof.
  intros Hcwd. revert exist_ok.
  induction rnames as [|x rn IH]; intros exist_ok Hfiles Hok.
  - assert (stat t (resolve (mkPath anch (rev []))) = Some Dir) as Hd.
    { unfold resolve. simpl. destruct anch; [done |].
      rewrite app_nil_r. by destruct Hcwd. }
    destruct Hok as [-> | Hn]; [| congruence]. exists t.
    cbn [mkdir_parents]. unfold os_mkdir. simpl in Hd |- *. rewrite Hd. simpl.
    unfold is_dir. by rewrite bool_decide_eq_true_2.
  - cbn [mkdir_parents]. rewrite resolve_snoc in *.
    set (l := resolve (mkPath anch (rev rn))) in *.
    destruct (stat t (l ++ [x])) as [[c|]|] eqn:Hl.
    + exfalso. eapply Hfiles; [apply is_prefix_refl | done].
    + destruct Hok as [-> | Hn]; [| congruence]. exists t.
      unfold os_mkdir. rewrite Hl. simpl.
      unfold is_dir. by rewrite bool_decide_eq_true_2.
    + destruct (stat t l) as [[c|]|] eqn:Hp.
      * exfalso. eapply (Hfiles l); [apply is_prefix_app | done].
      * exists (<[l ++ [x] := Dir]> t). unfold os_mkdir.
        by rewrite Hl, parent_snoc, Hp.
      * unfold os_mkdir at 1. rewrite Hl, parent_snoc, Hp.
        destruct (IH true) as [t1 E1]; [| by left |].
        { intros k c Hk. apply Hfiles. apply is_prefix_parent.
          by rewrite parent_snoc. }
        rewrite E1. apply mkdir_parents_grows in E1 as [(Hd & Hout & _) _].
        fold l in Hd, Hout.
        exists (<[l ++ [x] := Dir]> t1). unfold mkdir_plain.
        rewrite os_mkdir_fresh; [done | |].
        -- rewrite stat_snoc, Hout by (by apply is_prefix_longer).
           by rewrite <- stat_snoc.
        -- by rewrite parent_snoc.
Qed.

(** C4: for every configuration from which the project paths can be
    derived, once the directory reset (lines 43-53) has run, the project
    directory holds a directory under each of the names modules, services,
    caching, tests and templates and nothing under any other name; the
    five names are constants, whatever the configuration says. *)
Theorem reset_leaves_five_subdirectories
    (config : yaml) (paths : project_paths) (w w' : world) :
  derive_paths config w = (Ret paths, w) ->
  sane w ->
  reset_tree (project_dir_of paths) w = (Ret tt, w') ->
  forall name,
    stat (files w') (resolve (project_dir_of paths) ++ [name])
    = if bool_decide (name ∈ ["modules"; "services"; "caching"; "tests"; "templates"])
      then Some Dir else None.
Proof.
  intros _ Hsane H name.
  apply reset_tree_Ret in H as (_ & Hsub & _); [| done].
  exact (Hsub [name]).
Qed.

(** A reset of a tree that a reset has left changes nothing. *)
Lemma reset_tree_fixed (l : location) (t : tree) :
  l <> [] ->
  (forall rel, stat t (l ++ rel) = subdir_at rel) ->
  with_subdirectories l (<[l := Dir]> (prune l t)) = t.
Proof.
  intros Hne Hsub. apply map_eq. intros k. destruct (is_prefix l k) eqn:Hk.
  - apply is_prefix_spec in Hk as [rel ->].
    assert (l ++ rel <> []) as Hne'.
    { intros E. by apply app_eq_nil in E as [? _]. }
    rewrite <- !stat_lookup by done. rewrite Hsub.
    apply with_subdirectories_below.
    + rewrite stat_lookup by done. apply lookup_insert_eq.
    + intros r Hr. rewrite lookup_insert_below by done.
      rewrite prune_lookup. by rewrite is_prefix_app.
  - rewrite with_subdirectories_outside by done.
    rewrite lookup_insert_outside by done. rewrite prune_lookup. by rewrite Hk.
Qed.

(** C7: for a target path that the system takes as it is written (its
    names are ordinary ones, none is [..], and it is not too long), when
    nothing exists at the target, the reset is the creation alone: no
    delete is attempted.  From
    a sane world in which no regular file stands at a location above the
    target, the creation returns; it logs the creation only, keeps every
    entry of the tree, and leaves under the target exactly what a reset of
    an existing target leaves. *)
Theorem reset_of_missing_target (project_dir : Path) (w : world) :
  portable project_dir ->
  stat (files w) (resolve project_dir) = None ->
  reset_tree project_dir w = make_tree project_dir w
  /\ (sane w ->
      (forall k c, is_prefix k (resolve project_dir) = true ->
         stat (files w) k <> Some (File c)) ->
      exists w',
        reset_tree project_dir w = (Ret tt, w')
        /\ logs w' = logs w ++ [created_log]
        /\ (forall k v, files w !! k = Some v -> files w' !! k = Some v)
        /\ (forall rel, stat (files w') (resolve project_dir ++ rel) = subdir_at rel)
        /\ (forall v v', sane v ->
              stat (files v) (resolve project_dir) = Some Dir ->
              reset_tree project_dir v = (Ret tt, v') ->
              forall rel,
                stat (files w') (resolve project_dir ++ rel)
                = stat (files v') (resolve project_dir ++ rel))).
Proof.
  intros _ Hl. split; [by apply reset_tree_missing |].
  intros Hsane Hfiles. pose proof Hsane as [Hwf Hcwd].
  assert (forall r, r <> [] -> files w !! (resolve project_dir ++ r) = None) as Hbelow.
  { intros r _. by apply well_formed_below. }
  destruct (mkdir_parents_succeeds false (anchored project_dir)
              (rev (parts project_dir)) (files w)) as [t1 E].
  { by right. }
  { by rewrite resolve_rev_rev. }
  { right. by rewrite resolve_rev_rev. }
  pose proof (make_tree_eq _ _ _ Hbelow E) as Hrun.
  rewrite <- reset_tree_missing in Hrun by done.
  eexists. split; [exact Hrun |].
  pose proof (reset_tree_Ret _ _ _ Hsane Hrun) as (_ & Hsub & _ & Hkeep & _).
  simpl in *. split; [done |]. split; [| split; [done |]].
  - intros k v Hv. apply Hkeep; [| done].
    destruct (is_prefix (resolve project_dir) k) eqn:Hk; [| done].
    apply is_prefix_spec in Hk as [r ->].
    rewrite well_formed_below in Hv by done. done.
  - intros v v' Hv _ Hrun' rel.
    apply reset_tree_Ret in Hrun' as (_ & Hsub' & _); [| done].
    by rewrite Hsub, Hsub'.
Qed.

(** ** Effects of the filesystem steps: no command, no exit *)

Lemma quiet_ret {A} (a : A) : quiet (ret a).
Proof. by intros w o w' [= <- <-]. Qed.

Lemma quiet_throw {A} e : quiet (@throw A e).
Proof. by intros w o w' [= <- <-]. Qed.

Lemma quiet_bind {A B} (m : M A) (k : A -> M B) :
  quiet m -> (forall a, quiet (k a)) -> quiet (bind m k).
Proof.
  intros Hm Hk w o w'. unfold bind.
  destruct (m w) as [[a|e] w1] eqn:E.
  - intros H. apply Hk in H. apply Hm in E. congruence.
  - intros [= <- <-]. by apply Hm in E.
Qed.

Lemma quiet_logging lv msg : quiet (logging lv msg).
Proof. by intros w o w' [= <- <-]. Qed.

Lemma quiet_get_files : quiet get_files.
Proof. by intros w o w' [= <- <-]. Qed.

Lemma quiet_set_files t : quiet (set_files t).
Proof. by intros w o w' [= <- <-]. Qed.

Lemma quiet_lift_tree f : quiet (lift_tree f).
Proof.
  intros w o w'. unfold lift_tree. by destruct (f (files w)); intros [= <- <-].
Qed.

Lemma no_exit_ret {A} (a : A) : no_exit (ret a).
Proof. by intros w c w'. Qed.

Lemma no_exit_throw {A} e : (forall c, e <> SystemExit c) -> no_exit (@throw A e).
Proof. intros He w c w' [= -> _]. by eapply He. Qed.

Lemma no_exit_bind {A B} (m : M A) (k : A -> M B) :
  no_exit m -> (forall a, no_exit (k a)) -> no_exit (bind m k).
Proof.
  intros Hm Hk w c w'. unfold bind.
  destruct (m w) as [[a|e] w1] eqn:E.
  - apply Hk.
  - intros [= -> <-]. by eapply Hm.
Qed.

Lemma no_exit_logging lv msg : no_exit (logging lv msg).
Proof. by intros w c w'. Qed.

Lemma no_exit_get_files : no_exit get_files.
Proof. by intros w c w'. Qed.

Lemma no_exit_set_files t : no_exit (set_files t).
Proof. by intros w c w'. Qed.

Lemma os_mkdir_no_exit l t c : os_mkdir l t <> Raise (SystemExit c).
Proof.
  unfold os_mkdir. destruct (stat t l); [done |].
  by destruct (stat t (parent l)) as [[b|]|].
Qed.

Lemma mkdir_plain_no_exit exist_ok l t c :
  mkdir_plain exist_ok l t <> Raise (SystemExit c).
Proof.
  unfold mkdir_plain. destruct (os_mkdir l t) as [t'|e] eqn:E; [done |].
  destruct e; try done; try (by destruct (exist_ok && is_dir t l)).
  by apply os_mkdir_no_exit in E.
Qed.

Lemma mkdir_parents_no_exit exist_ok anch rnames t c :
  mkdir_parents exist_ok anch rnames t <> Raise (SystemExit c).
Proof.
  revert exist_ok. induction rnames as [|x rn IH]; intros exist_ok;
    cbn [mkdir_parents];
    match goal with
    | |- context [os_mkdir ?l t] => destruct (os_mkdir l t) as [t'|e] eqn:E
    end; try done;
    (destruct e; try done; try (by destruct (exist_ok && is_dir t _));
     try (by apply os_mkdir_no_exit in E)).
  destruct (mkdir_parents true anch rn t) as [t1|e1] eqn:E1.
  - apply mkdir_plain_no_exit.
  - intros [= ->]. by eapply IH.
Qed.

Lemma no_exit_lift_tree f :
  (forall t c, f t <> Raise (SystemExit c)) -> no_exit (lift_tree f).
Proof.
  intros Hf w c w'. unfold lift_tree.
  destruct (f (files w)) as [t|e] eqn:E; [done |].
  intros [= -> _]. by eapply Hf.
Qed.

Create HintDb effects.

#[local] Hint Resolve quiet_ret quiet_throw quiet_logging quiet_get_files
  quiet_set_files quiet_lift_tree no_exit_ret no_exit_logging no_exit_get_files
  no_exit_set_files : effects.

(** Both effect properties follow the structure of the computation. *)
Ltac effects :=
  repeat first
    [ progress eauto with effects
    | apply quiet_bind | apply no_exit_bind
    | apply no_exit_throw; done
    | apply no_exit_lift_tree;
      first [ apply mkdir_parents_no_exit | apply mkdir_plain_no_exit ]
    | match goal with |- forall _, _ => intro end
    | case_match ].

Lemma quiet_Path_exists p : quiet (Path_exists p).
Proof. unfold Path_exists. effects. Qed.

Lemma no_exit_Path_exists p : no_exit (Path_exists p).
Proof. unfold Path_exists. effects. Qed.

Lemma quiet_Path_mkdir parents p : quiet (Path_mkdir parents p).
Proof. unfold Path_mkdir. effects. Qed.

Lemma no_exit_Path_mkdir parents p : no_exit (Path_mkdir parents p).
Proof. unfold Path_mkdir. effects. Qed.

Lemma quiet_rmtree p : quiet (rmtree p).
Proof. unfold rmtree. effects. Qed.

Lemma no_exit_rmtree p : no_exit (rmtree p).
Proof. unfold rmtree. effects. Qed.

Lemma quiet_open_write p c : quiet (open_write p c).
Proof. unfold open_write. effects. Qed.

Lemma no_exit_open_write p c : no_exit (open_write p c).
Proof. unfold open_write. effects. Qed.

Lemma quiet_open_read p : quiet (open_read p).
Proof. unfold open_read. effects. Qed.

Lemma no_exit_open_read p : no_exit (open_read p).
Proof. unfold open_read. effects. Qed.

#[local] Hint Resolve quiet_Path_exists no_exit_Path_exists quiet_Path_mkdir
  no_exit_Path_mkdir quiet_rmtree no_exit_rmtree quiet_open_write
  no_exit_open_write quiet_open_read no_exit_open_read : effects.

Lemma quiet_write_file p c : quiet (write_file p c).
Proof. unfold write_file. effects. Qed.

Lemma no_exit_write_file p c : no_exit (write_file p c).
Proof. unfold write_file. effects. Qed.

#[local] Hint Resolve quiet_write_file no_exit_write_file : effects.

Lemma quiet_write_all items : quiet (write_all items).
Proof. induction items as [|[p c] items IH]; cbn [write_all]; effects. Qed.

Lemma no_exit_write_all items : no_exit (write_all items).
Proof. induction items as [|[p c] items IH]; cbn [write_all]; effects. Qed.

#[local] Hint Resolve quiet_write_all no_exit_write_all : effects.

Lemma quiet_reset_tree p : quiet (reset_tree p).
Proof. unfold reset_tree, make_tree. effects. Qed.

Lemma no_exit_reset_tree p : no_exit (reset_tree p).
Proof. unfold reset_tree, make_tree. effects. Qed.

Lemma quiet_create_directories p td : quiet (create_directories p td).
Proof. unfold create_directories, reset_tree, make_tree. effects. Qed.

Lemma no_exit_create_directories p td : no_exit (create_directories p td).
Proof. unfold create_directories, reset_tree, make_tree. effects. Qed.

Lemma quiet_derive_paths config : quiet (derive_paths config).
Proof. unfold derive_paths, getitem, Path_of, truediv. effects. Qed.

Lemma no_exit_derive_paths config : no_exit (derive_paths config).
Proof. unfold derive_paths, getitem, Path_of, truediv. effects. Qed.

Lemma quiet_write_outputs p td : quiet (write_outputs p td).
Proof. unfold write_outputs, instantiate, read_file. effects. Qed.

Lemma no_exit_write_outputs p td : no_exit (write_outputs p td).
Proof. unfold write_outputs, instantiate, read_file. effects. Qed.

#[local] Hint Resolve quiet_create_directories no_exit_create_directories
  quiet_derive_paths no_exit_derive_paths quiet_write_outputs
  no_exit_write_outputs : effects.

Lemma quiet_materialize config : quiet (materialize config).
Proof. unfold materialize. effects. Qed.

Lemma no_exit_materialize config : no_exit (materialize config).
Proof. unfold materialize. effects. Qed.

(** ** Writing and reading files *)

Lemma read_after_write sep s :
  mentions cr s = false -> read_newlines (write_newlines sep s) = s.
Proof.
  induction s as [|a s IH]; [done |]. cbn [mentions write_newlines].
  intros [Ha Hs]%orb_false_elim. apply bool_decide_eq_false in Ha.
  destruct (decide (a = nl)) as [->|Hnl].
  - specialize (IH Hs).
    destruct sep; simpl; exact (f_equal (String nl) IH).
  - cbn [read_newlines]. destruct (decide (a = cr)); [done |]. by rewrite IH.
Qed.

Lemma template_texts_have_no_cr :
  mentions cr setup_content = false
  /\ mentions cr redzer_spec_content = false
  /\ mentions cr redzer_installer_content = false.
Proof. by vm_compute. Qed.

Lemma open_write_Ret p c w w' :
  open_write p c w = (Ret tt, w') ->
  w' = mkWorld (<[resolve p := File (write_newlines linesep c)]> (files w))
         (logs w) (calls w).
Proof.
  unfold open_write, get_files, set_files, bind, ret, throw. simpl.
  destruct (stat (files w) (resolve p)) as [[b|]|];
    destruct (stat (files w) (parent (resolve p))) as [[b'|]|]; congruence.
Qed.

Lemma write_file_Ret p c w w' :
  write_file p c w = (Ret tt, w') ->
  w' = mkWorld (<[resolve p := File (write_newlines linesep c)]> (files w))
         (logs w ++ [(INFO, "Created " +:+ str p)]) (calls w).
Proof.
  unfold write_file. intros ([] & w1 & H1 & H)%bind_Ret_inv.
  apply open_write_Ret in H1 as ->. by injection H as <-.
Qed.

Lemma read_file_Ret p w s w' :
  read_file p w = (Ret s, w') ->
  w' = w /\ exists b, stat (files w) (resolve p) = Some (File b) /\ s = read_newlines b.
Proof.
  unfold read_file, open_read, get_files, bind, ret, throw. simpl.
  destruct (stat (files w) (resolve p)) as [[b|]|].
  - intros [= <- <-]. eauto.
  - done.
  - by destruct (stat (files w) (parent (resolve p))) as [[b'|]|].
Qed.

Lemma instantiate_Ret project_dir template_dir template output w out w' :
  starts_with_slash template = false -> names_of template = [template] ->
  starts_with_slash output = false -> names_of output = [output] ->
  instantiate project_dir template_dir template output w = (Ret out, w') ->
  out = joinpath project_dir output
  /\ exists b,
       files w !! (resolve template_dir ++ [template]) = Some (File b)
       /\ files w'
          = <[resolve project_dir ++ [output]
              := File (write_newlines linesep (read_newlines b))]> (files w)
       /\ calls w' = calls w.
Proof.
  intros Ht Ht' Ho Ho'. unfold instantiate.
  intros (s & w1 & H1 & H)%bind_Ret_inv.
  apply read_file_Ret in H1 as (-> & b & Hb & ->).
  apply bind_Ret_inv in H as ([] & w2 & H2 & H).
  apply write_file_Ret in H2 as ->. injection H as <- <-.
  rewrite resolve_child, stat_snoc in Hb by done.
  rewrite resolve_child by done. eauto.
Qed.

Lemma some_file_inj (a b : string) : Some (File a) = Some (File b) -> a = b.
Proof. congruence. Qed.

Lemma snoc_snoc (l : location) a b : (l ++ [a]) ++ [b] = l ++ [a; b].
Proof. by rewrite <- app_assoc. Qed.

Lemma write_templates_Ret template_dir w w' :
  write_all (template_files template_dir) w = (Ret tt, w') ->
  files w'
  = <[resolve template_dir ++ ["redzer_installer_template.iss"]
      := File (write_newlines linesep redzer_installer_content)]>
      (<[resolve template_dir ++ ["redzer_template.spec"]
         := File (write_newlines linesep redzer_spec_content)]>
         (<[resolve template_dir ++ ["setup_template.py"]
            := File (write_newlines linesep setup_content)]> (files w)))
  /\ calls w' = calls w.
Proof.
  unfold template_files. cbn [write_all].
  intros ([] & w1 & H1 & H)%bind_Ret_inv.
  apply bind_Ret_inv in H as ([] & w2 & H2 & H).
  apply bind_Ret_inv in H as ([] & w3 & H3 & H).
  apply write_file_Ret in H1 as ->. apply write_file_Ret in H2 as ->.
  apply write_file_Ret in H3 as ->. injection H as <-. cbn [files calls].
  by rewrite !resolve_child by done.
Qed.

Lemma getitem_Ret config key w v w' :
  getitem config key w = (Ret v, w') ->
  w' = w /\ exists m, config = YMap m /\ m !! key = Some v.
Proof.
  unfold getitem. destruct config as [| | | | |m]; try done.
  destruct (m !! key) as [v'|] eqn:E; [| done]. intros [= <- <-]. eauto.
Qed.

Lemma Path_of_Ret v w p w' :
  Path_of v w = (Ret p, w') -> w' = w /\ exists s, v = YStr s /\ p = PurePath s.
Proof. destruct v; try done. intros [= <- <-]. eauto. Qed.

Lemma truediv_Ret p v w q w' :
  truediv p v w = (Ret q, w') -> w' = w /\ exists s, v = YStr s /\ q = joinpath p s.
Proof. destruct v; try done. intros [= <- <-]. eauto. Qed.

Lemma derive_paths_Ret config w paths w' :
  derive_paths config w = (Ret paths, w') ->
  w' = w
  /\ template_dir_of paths = joinpath (project_dir_of paths) "templates"
  /\ exists m name root venv,
       config = YMap m
       /\ m !! "project_name" = Some (YStr name)
       /\ m !! "project_dir" = Some (YStr root)
       /\ m !! "venv_dir" = Some (YStr venv)
       /\ project_dir_of paths = joinpath (PurePath root) name
       /\ venv_dir_of paths = joinpath (project_dir_of paths) venv.
Proof.
  unfold derive_paths. intros (v1 & w1 & H1 & H)%bind_Ret_inv.
  apply getitem_Ret in H1 as (-> & m & -> & Hn).
  apply bind_Ret_inv in H as (p2 & w2 & H2 & H).
  apply bind_Ret_inv in H2 as (v2 & w2' & H2 & H2').
  apply getitem_Ret in H2 as (-> & m' & [= <-] & Hr).
  apply Path_of_Ret in H2' as (-> & root & -> & ->).
  apply bind_Ret_inv in H as (pd & w3 & H3 & H).
  apply truediv_Ret in H3 as (-> & name & -> & ->).
  apply bind_Ret_inv in H as (vd & w4 & H4 & H).
  apply bind_Ret_inv in H4 as (v4 & w4' & H4 & H4').
  apply getitem_Ret in H4 as (-> & m' & [= <-] & Hv).
  apply truediv_Ret in H4' as (-> & venv & -> & ->).
  injection H as <- <-. cbn [project_dir_of template_dir_of venv_dir_of].
  split; [done |]. split; [done |]. by exists m, name, root, venv.
Qed.

(** A run of the file-writing steps that returns leaves each template and
    each output with the text of the script, newlines as written. *)
Lemma materialize_Ret config w made w' :
  materialize config w = (Ret made, w') ->
  made.2 = (joinpath (project_dir_of made.1) "redzer.spec",
            joinpath (project_dir_of made.1) "redzer_installer.iss")
  /\ calls w' = calls w
  /\ (let pd := resolve (project_dir_of made.1) in
      let holds l text := files w' !! l = Some (File (write_newlines linesep text)) in
      holds (pd ++ ["templates"; "setup_template.py"]) setup_content
      /\ holds (pd ++ ["templates"; "redzer_template.spec"]) redzer_spec_content
      /\ holds (pd ++ ["templates"; "redzer_installer_template.iss"])
           redzer_installer_content
      /\ holds (pd ++ ["setup.py"]) setup_content
      /\ holds (pd ++ ["redzer.spec"]) redzer_spec_content
      /\ holds (pd ++ ["redzer_installer.iss"]) redzer_installer_content).
Proof.
  intros H. pose proof (quiet_materialize _ _ _ _ H) as Hq. revert H.
  unfold materialize. intros (paths & w1 & Hd & H)%bind_Ret_inv.
  apply derive_paths_Ret in Hd as (-> & Htd & _).
  apply bind_Ret_inv in H as ([] & w2 & _ & H).
  apply bind_Ret_inv in H as ([] & w3 & Hc & H).
  apply bind_Ret_inv in H as ([spec_path inno_path] & w4 & Ho & H).
  injection H as <- <-. cbn [fst snd]. rewrite Htd in Hc, Ho.
  set (pd := project_dir_of paths) in *.
  assert (forall (a : string) (r : list string), r <> [a] ->
            resolve pd ++ [a] <> resolve pd ++ r) as Hne.
  { intros a r Hra E. apply snoc_inj in E. contradiction. }
  assert (forall (r r' : list string), r <> r' ->
            resolve pd ++ r <> resolve pd ++ r') as Hne'.
  { intros r r' Hrr E. apply app_inv_head in E. contradiction. }
  unfold create_directories in Hc.
  apply bind_Ret_inv in Hc as ([] & w2' & Hr & Hc).
  apply write_templates_Ret in Hc as [Hf3 Hc3].
  rewrite resolve_child in Hf3 by done.
  unfold write_outputs in Ho.
  apply bind_Ret_inv in Ho as (o1 & v1 & H1 & Ho).
  apply bind_Ret_inv in Ho as (o2 & v2 & H2 & Ho).
  apply bind_Ret_inv in Ho as (o3 & v3 & H3 & Ho).
  injection Ho as <- <- <-.
  apply instantiate_Ret in H1 as (-> & b1 & Hb1 & Hf1 & Hc1); [| done..].
  apply instantiate_Ret in H2 as (-> & b2 & Hb2 & Hf2 & Hc2); [| done..].
  apply instantiate_Ret in H3 as (-> & b3 & Hb3 & Hf3' & Hc3'); [| done..].
  rewrite resolve_child in Hb1, Hb2, Hb3 by done.
  repeat rewrite snoc_snoc in Hf3. rewrite snoc_snoc in Hb1, Hb2, Hb3.
  rewrite Hf2, lookup_insert_ne, Hf1, lookup_insert_ne, Hf3 in Hb3
    by (apply Hne; discriminate).
  rewrite lookup_insert_eq in Hb3. apply some_file_inj in Hb3 as <-.
  rewrite Hf1, lookup_insert_ne, Hf3 in Hb2 by (apply Hne; discriminate).
  rewrite lookup_insert_ne, lookup_insert_eq in Hb2 by (apply Hne'; discriminate).
  apply some_file_inj in Hb2 as <-.
  rewrite Hf3 in Hb1.
  rewrite !lookup_insert_ne, lookup_insert_eq in Hb1 by (apply Hne'; discriminate).
  apply some_file_inj in Hb1 as <-.
  destruct template_texts_have_no_cr as (N1 & N2 & N3).
  rewrite read_after_write in Hf1, Hf2, Hf3' by assumption.
  split; [reflexivity |]. split; [exact Hq |].
  cbv zeta. rewrite Hf3', Hf2, Hf1, Hf3.
  repeat split;
    repeat (rewrite lookup_insert_ne
              by (first [apply Hne | apply Hne']; discriminate));
    apply lookup_insert_eq.
Qed.

(** ** The directory setup as a whole *)

Lemma write_file_fresh p c w :
  stat (files w) (resolve p) = None ->
  stat (files w) (parent (resolve p)) = Some Dir ->
  write_file p c w
  = (Ret tt, mkWorld (<[resolve p := File (write_newlines linesep c)]> (files w))
               (logs w ++ [(INFO, "Created " +:+ str p)]) (calls w)).
Proof.
  intros Hl Hp. unfold write_file.
  erewrite bind_Ret; cycle 1.
  { unfold open_write, get_files, set_files, bind, ret. simpl. by rewrite Hl, Hp. }
  done.
Qed.

(** The three templates written into an empty directory. *)
Lemma write_templates_fresh template_dir w :
  stat (files w) (resolve template_dir) = Some Dir ->
  (forall n, files w !! (resolve template_dir ++ [n]) = None) ->
  exists w',
    write_all (template_files template_dir) w = (Ret tt, w')
    /\ files w' = with_templates (resolve template_dir) (files w).
Proof.
  intros Hd Hempty. unfold template_files. cbn [write_all].
  erewrite bind_Ret; cycle 1.
  { apply write_file_fresh; rewrite resolve_child by done.
    - by rewrite stat_snoc.
    - by rewrite parent_snoc. }
  erewrite bind_Ret; cycle 1.
  { apply write_file_fresh; rewrite !resolve_child by done; cbn [files].
    - rewrite stat_snoc, lookup_insert_child.
      destruct (decide (_ = _)); [discriminate | done].
    - by rewrite parent_snoc, stat_insert_child. }
  erewrite bind_Ret; cycle 1.
  { apply write_file_fresh; rewrite !resolve_child by done; cbn [files].
    - rewrite stat_snoc, !lookup_insert_child.
      repeat (destruct (decide (_ = _)); [discriminate |]). done.
    - by rewrite parent_snoc, !stat_insert_child. }
  eexists. split; [done |]. cbn [files]. by rewrite !resolve_child by done.
Qed.

Lemma with_templates_outside (l : location) (t : tree) k :
  is_prefix l k = false -> with_templates (l ++ ["templates"]) t !! k = t !! k.
Proof.
  intros Hk. unfold with_templates. rewrite !snoc_snoc.
  rewrite !lookup_insert_ne; [done | ..]; intros <-; by rewrite is_prefix_app in Hk.
Qed.

Lemma with_templates_below (l : location) (t : tree) rel :
  (forall r, stat t (l ++ r) = subdir_at r) ->
  stat (with_templates (l ++ ["templates"]) t) (l ++ rel) = scaffold_at rel.
Proof.
  intros Hsub. unfold with_templates. rewrite !snoc_snoc.
  assert (forall (r r' : list string) v (t' : tree),
            r <> r' -> stat (<[l ++ r := v]> t') (l ++ r') = stat t' (l ++ r')) as Hne.
  { intros r r' v t' Hr. destruct (l ++ r') eqn:E; [done |]. simpl. rewrite <- E.
    apply lookup_insert_ne. intros E'. by apply app_inv_head in E'. }
  destruct rel as [|d [|n [|x rel]]].
  - rewrite !Hne by discriminate. apply Hsub.
  - rewrite !Hne by discriminate. apply Hsub.
  - unfold scaffold_at. destruct (decide (d = "templates")) as [->|Hd]; cycle 1.
    { rewrite !Hne by congruence. apply Hsub. }
    rewrite !stat_lookup by (by destruct l). unfold template_at.
    destruct (decide (n = "setup_template.py")) as [->|H1].
    { rewrite !lookup_insert_ne by (intros E; apply app_inv_head in E; discriminate).
      apply lookup_insert_eq. }
    destruct (decide (n = "redzer_template.spec")) as [->|H2].
    { rewrite lookup_insert_ne by (intros E; apply app_inv_head in E; discriminate).
      apply lookup_insert_eq. }
    destruct (decide (n = "redzer_installer_template.iss")) as [->|H3].
    { apply lookup_insert_eq. }
    rewrite !lookup_insert_ne by (intros E; apply app_inv_head in E; congruence).
    rewrite <- stat_lookup by (by destruct l). apply Hsub.
  - rewrite !Hne by discriminate. apply Hsub.
Qed.

Lemma prune_with_templates (l : location) (t : tree) :
  prune l (with_templates (l ++ ["templates"]) t) = prune l t.
Proof.
  apply map_eq. intros k. rewrite !prune_lookup.
  destruct (is_prefix l k) eqn:Hk; [done |]. by apply with_templates_outside.
Qed.

(** C5: from a sane world, when one reset of a target (lines 43-53)
    returns, a second reset of the same target returns as well and leaves
    the very same tree; after a reset the target holds its five
    subdirectories and nothing else, so that no file that was under the
    target before the reset, at any depth, is there after it.  The same
    holds of [create_directories] as the workflow calls it: a second run
    returns and leaves the same tree, which under the target holds the five
    subdirectories and the three templates and nothing else. *)
Theorem reset_is_idempotent (project_dir : Path) (w : world) :
  sane w ->
  (forall w1,
     reset_tree project_dir w = (Ret tt, w1) ->
     (exists w2, reset_tree project_dir w1 = (Ret tt, w2) /\ files w2 = files w1)
     /\ (forall rel, stat (files w1) (resolve project_dir ++ rel) = subdir_at rel)
     /\ (forall k c, is_prefix (resolve project_dir) k = true ->
           files w1 !! k <> Some (File c)))
  /\ (forall w1,
        create_directories project_dir (joinpath project_dir "templates") w
        = (Ret tt, w1) ->
        (exists w2,
           create_directories project_dir (joinpath project_dir "templates") w1
           = (Ret tt, w2)
           /\ files w2 = files w1)
        /\ (forall rel,
              stat (files w1) (resolve project_dir ++ rel) = scaffold_at rel)).
Proof.
  intros Hsane. split.
  - intros w1 H.
    apply reset_tree_Ret in H as (Hp & Hsub & Hpar & _); [| done].
    pose proof (resolve_nonempty _ Hp) as Hne.
    assert (stat (files w1) (resolve project_dir) = Some Dir) as Hd.
    { specialize (Hsub []). by rewrite app_nil_r in Hsub. }
    split; [| split; [done |]].
    + eexists. split; [by apply reset_tree_again |]. simpl.
      by apply reset_tree_fixed.
    + intros k c [rel ->]%is_prefix_spec Hk.
      assert (resolve project_dir ++ rel <> []) as Hne'.
      { intros E. by apply app_eq_nil in E as [? _]. }
      rewrite <- stat_lookup in Hk by done. rewrite Hsub in Hk.
      destruct rel as [|n [|m rel]]; simpl in Hk; [done | | done].
      by case_bool_decide.
  - intros w1 H. unfold create_directories in H.
    apply bind_Ret_inv in H as ([] & wr & Hr & Hw).
    apply reset_tree_Ret in Hr as (Hp & Hsub & Hpar & _); [| done].
    pose proof (resolve_nonempty _ Hp) as Hne.
    apply write_templates_Ret in Hw as [Hf _].
    rewrite resolve_child in Hf by done. fold (with_templates
      (resolve project_dir ++ ["templates"]) (files wr)) in Hf.
    assert (forall rel,
              stat (files w1) (resolve project_dir ++ rel) = scaffold_at rel) as Hsc.
    { intros rel. rewrite Hf. by apply with_templates_below. }
    split; [| done].
    assert (stat (files w1) (resolve project_dir) = Some Dir) as Hd.
    { specialize (Hsc []). by rewrite app_nil_r in Hsc. }
    assert (stat (files w1) (parent (resolve project_dir)) = Some Dir) as Hpar1.
    { destruct (parent (resolve project_dir)) eqn:E; [done |]. simpl. rewrite <- E.
      rewrite Hf, with_templates_outside by (by apply is_prefix_parent_false).
      rewrite E. exact Hpar. }
    unfold create_directories.
    erewrite bind_Ret by (by apply reset_tree_again). 
    match goal with
    | |- context [write_all _ ?v] =>
        destruct (write_templates_fresh (joinpath project_dir "templates") v)
          as (w2 & Hrun & Hf2)
    end.
    + cbn [files]. rewrite Hf, prune_with_templates, reset_tree_fixed by done.
      rewrite resolve_child by done. exact (Hsub ["templates"]).
    + intros n. cbn [files].
      rewrite Hf, prune_with_templates, reset_tree_fixed by done.
      rewrite resolve_child, snoc_snoc by done.
      rewrite <- stat_lookup by (by destruct (resolve project_dir)).
      exact (Hsub ["templates"; n]).
    + exists w2. split; [exact Hrun |]. rewrite Hf2. cbn [files].
      rewrite Hf at 1. rewrite prune_with_templates, reset_tree_fixed by done.
      by rewrite resolve_child by done.
Qed.

(** ** The file-writing steps *)

(** C2: whenever the file-writing steps of [initialize_project] (lines
    182-203) run to their end, each of the three files written at the
    project root holds exactly the bytes of its template in [templates/]:
    [setup.py] those of [setup_template.py], the build-spec file those of
    the build-spec template, the installer script those of the installer
    template.  Nothing is substituted on the way. *)
Theorem outputs_equal_templates (config : yaml) (w w' : world)
    (made : project_paths * (Path * Path)) :
  materialize config w = (Ret made, w') ->
  let pd := resolve (project_dir_of made.1) in
  same_bytes (files w') (pd ++ ["templates"; "setup_template.py"]) (pd ++ ["setup.py"])
  /\ same_bytes (files w') (pd ++ ["templates"; "redzer_template.spec"])
       (pd ++ ["redzer.spec"])
  /\ same_bytes (files w') (pd ++ ["templates"; "redzer_installer_template.iss"])
       (pd ++ ["redzer_installer.iss"]).
Proof.
  intros (_ & _ & T1 & T2 & T3 & O1 & O2 & O3)%materialize_Ret pd.
  unfold same_bytes. repeat split; eexists; split; eassumption.
Qed.

(** C9, as the code has it: whenever the file-writing steps run to their
    end, the files at the project root are named [setup.py],
    [redzer.spec] and [redzer_installer.iss] and the templates
    [setup_template.py], [redzer_template.spec] and
    [redzer_installer_template.iss]: the stem of the build-spec and
    installer names is the constant redzer, whatever project name is
    configured, and these are the paths handed to the build and to the
    installer compiler. *)
Theorem output_names_are_fixed (config : yaml) (w w' : world)
    (made : project_paths * (Path * Path)) :
  materialize config w = (Ret made, w') ->
  files_named "redzer" (resolve (project_dir_of made.1)) (files w')
  /\ made.2 = (joinpath (project_dir_of made.1) "redzer.spec",
               joinpath (project_dir_of made.1) "redzer_installer.iss").
Proof.
  intros (Hout & _ & T1 & T2 & T3 & O1 & O2 & O3)%materialize_Ret.
  split; [| done].
  unfold files_named, is_file. repeat split; eexists; eassumption.
Qed.

(** ** Loading the configuration *)

Lemma os_path_exists_eq s w :
  os_path_exists s w = (Ret (os_exists (files w) s), w).
Proof. done. Qed.

Lemma os_exists_found t s l n : os_stat t s = inr (l, n) -> os_exists t s = true.
Proof. unfold os_exists. by intros ->. Qed.

Lemma os_open_read_eq s w :
  os_open_read s w
  = (match os_stat (files w) s with
     | inr (_, File b) => Ret b
     | inr (l, Dir) => Raise (IsADirectoryError l)
     | inl (NoSuchEntry, l) => Raise (FileNotFoundError l)
     | inl (NotADirectory, l) => Raise (NotADirectoryError l)
     | inl (EmbeddedNull, _) => Raise ValueError
     end, w).
Proof.
  unfold os_open_read, get_files, bind, ret, throw. simpl.
  by destruct (os_stat (files w) s) as [[[| |] l]|[l [b|]]].
Qed.

Lemma load_config_missing s w :
  os_exists (files w) s = false ->
  load_config s w
  = (Raise (SystemExit 1),
     mkWorld (files w) (logs w ++ [(ERROR, "Configuration file not found: " +:+ s)])
       (calls w)).
Proof.
  intros H. unfold load_config.
  erewrite bind_Ret by apply os_path_exists_eq. rewrite H. simpl.
  erewrite bind_Raise; [done |]. by erewrite bind_Ret by apply logging_eq.
Qed.

Lemma load_config_file s w l b :
  os_stat (files w) s = inr (l, File b) ->
  load_config s w
  = (match safe_load b with
     | Parsed config => Ret config
     | Malformed => Raise YAMLError
     | Undecodable => Raise UnicodeDecodeError
     end, w).
Proof.
  intros H. unfold load_config.
  erewrite bind_Ret by apply os_path_exists_eq.
  rewrite (os_exists_found _ _ _ _ H). simpl.
  erewrite bind_Ret by done.
  erewrite bind_Ret; cycle 1.
  { rewrite os_open_read_eq. by rewrite H. }
  by destruct (safe_load b).
Qed.

Lemma load_config_directory s w l :
  os_stat (files w) s = inr (l, Dir) ->
  load_config s w = (Raise (IsADirectoryError l), w).
Proof.
  intros H. unfold load_config.
  erewrite bind_Ret by apply os_path_exists_eq.
  rewrite (os_exists_found _ _ _ _ H). simpl.
  erewrite bind_Ret by done.
  erewrite bind_Raise; [done |].
  rewrite os_open_read_eq. by rewrite H.
Qed.

(** [load_config] exits only where the path names nothing. *)
Lemma load_config_exit s w c w' :
  load_config s w = (Raise (SystemExit c), w') -> os_exists (files w) s = false.
Proof.
  destruct (os_stat (files w) s) as [failure|[l [b|]]] eqn:E.
  - intros _. unfold os_exists. by rewrite E.
  - rewrite (load_config_file _ _ l b) by done. by destruct (safe_load b).
  - by rewrite (load_config_directory _ _ l).
Qed.

(** ** Running commands *)

Lemma no_exit_run_command cmd env : no_exit (run_command cmd env).
Proof.
  unfold run_command. apply no_exit_bind; [by intros w c w' |].
  intros r. unfold decode. effects.
Qed.

Lemma no_exit_build_and_package config pd vd sp ip :
  no_exit (build_and_package config pd vd sp ip).
Proof.
  pose proof no_exit_run_command.
  unfold build_and_package, getitem, truediv, env_getitem. effects.
Qed.

Lemma no_exit_initialize_project config : no_exit (initialize_project config).
Proof.
  pose proof no_exit_materialize. pose proof no_exit_build_and_package.
  unfold initialize_project. effects.
Qed.

(** Whatever its outcome, [run_command] has issued its command, once. *)
Lemma run_command_calls cmd env w o w' :
  run_command cmd env w = (o, w') -> calls w' = calls w ++ [mkCall cmd env].
Proof.
  unfold run_command, run, decode, logging, bind, ret, throw. simpl.
  intros H. repeat case_match; by simplify_eq.
Qed.

(** The tree after [run_command] is the tree its command left when run, as
    the next command of the process, on the tree before. *)
Lemma run_command_files cmd env w o w' :
  run_command cmd env w = (o, w') ->
  files w' = files_after (subprocess_run (length (calls w)) cmd env (files w)).
Proof.
  unfold run_command, run, decode, logging, bind, ret, throw. simpl.
  intros H. repeat case_match; by simplify_eq.
Qed.

(** A command whose captured streams are UTF-8 never makes [run_command]
    raise, whatever its exit status. *)
Lemma run_command_returns cmd env w :
  let r := subprocess_run (length (calls w)) cmd env (files w) in
  utf8_valid (stdout r) = true -> utf8_valid (stderr r) = true ->
  exists w', run_command cmd env w = (Ret tt, w')
             /\ files w' = files_after r
             /\ calls w' = calls w ++ [mkCall cmd env].
Proof.
  intros r Hout Herr.
  unfold run_command, run, decode, decode_utf8, logging, bind, ret, throw. simpl.
  fold r. rewrite Hout, Herr. destruct (decide (returncode r = 0)); eauto.
Qed.

(** A failed command whose error stream is not UTF-8 makes [run_command]
    raise from its handler. *)
Lemma run_command_raises cmd env w :
  let r := subprocess_run (length (calls w)) cmd env (files w) in
  returncode r <> 0 -> utf8_valid (stderr r) = false ->
  exists w', run_command cmd env w = (Raise UnicodeDecodeError, w').
Proof.
  intros r Hrc Herr.
  unfold run_command, run, decode, decode_utf8, logging, bind, ret, throw. simpl.
  fold r. rewrite Herr. destruct (decide (returncode r = 0)); [done | eauto].
Qed.

(** ** The entry point *)

(** C3: when the configuration path names nothing, that is, when
    [os.path.exists] is false for the path string as it was given, the
    workflow ends the process with exit status 1, having logged one error
    and nothing else: the tree is untouched and no command was issued.
    Conversely the workflow ends through [exit] in that case only. *)
Theorem missing_configuration_is_the_only_exit (config_file : string) (w : world) :
  (os_exists (files w) config_file = false ->
   main config_file w
   = (Raise (SystemExit 1),
      mkWorld (files w)
        (logs w ++ [(ERROR, "Configuration file not found: " +:+ config_file)])
        (calls w)))
  /\ (forall c w',
        main config_file w = (Raise (SystemExit c), w') ->
        os_exists (files w) config_file = false).
Proof.
  split.
  - intros H. unfold main. erewrite bind_Raise; [done |]. by apply load_config_missing.
  - intros c w' H. unfold main, bind in H.
    destruct (load_config config_file w) as [[config|e] w1] eqn:E.
    + by apply no_exit_initialize_project in H.
    + injection H as -> <-. by eapply load_config_exit.
Qed.

(** C10: for a path string that names an existing regular file,
    [load_config] never exits: it returns whatever [yaml.safe_load] makes
    of the file, unchecked, and leaves the world as it was.  In particular
    a file that loads as [None] passes the load step, and the workflow then
    fails at its first subscript, [config['project_name']], with the error
    of that lookup; for the empty mapping that error is the [KeyError]. *)
Theorem existing_configuration_is_loaded_unchecked
    (config_file : string) (l : location) (bytes : string) (w : world) :
  os_stat (files w) config_file = inr (l, File bytes) ->
  (forall config,
     safe_load bytes = Parsed config ->
     load_config config_file w = (Ret config, w))
  /\ (forall c w', load_config config_file w <> (Raise (SystemExit c), w'))
  /\ (safe_load bytes = Parsed YNull ->
      exists e,
        getitem YNull "project_name" w = (Raise e, w)
        /\ main config_file w = (Raise e, w)
        /\ forall c, e <> SystemExit c)
  /\ (safe_load bytes = Parsed (YMap ∅) ->
      main config_file w = (Raise (KeyError "project_name"), w)).
Proof.
  intros Hf. pose proof (load_config_file _ _ _ _ Hf) as Hload.
  split; [| split; [| split]].
  - intros config Hc. by rewrite Hload, Hc.
  - intros c w'. rewrite Hload. by destruct (safe_load bytes).
  - intros Hc. rewrite Hc in Hload. exists TypeError.
    split; [done |]. split; [| done]. unfold main. by erewrite bind_Ret by exact Hload.
  - intros Hc. rewrite Hc in Hload. unfold main. by erewrite bind_Ret by exact Hload.
Qed.

(** ** The configuration record *)

Lemma record_lookup fields key w :
  getitem (record fields) key w
  = (match fields !! key with
     | Some s => Ret (YStr s)
     | None => Raise (KeyError key)
     end, w).
Proof.
  unfold getitem, record. rewrite lookup_fmap. by destruct (fields !! key).
Qed.

(** Whatever the types of its values, a mapping without [venv_dir] makes
    the workflow raise before it has touched anything. *)
Lemma missing_venv_dir_touches_nothing (m : gmap string yaml) (w : world) :
  m !! "venv_dir" = None ->
  exists e, initialize_project (YMap m) w = (Raise e, w).
Proof.
  intros Hv.
  assert (exists e, derive_paths (YMap m) w = (Raise e, w)) as [e He].
  { unfold derive_paths, getitem, bind.
    destruct (m !! "project_name") as [v1|]; [| by eexists].
    unfold ret at 1. cbv beta iota.
    destruct (m !! "project_dir") as [v2|]; [| by eexists].
    unfold ret at 1. cbv beta iota.
    destruct v2; try (by eexists). unfold Path_of, ret at 1. cbv beta iota.
    destruct v1; try (by eexists). unfold truediv at 1, ret at 1. cbv beta iota.
    rewrite Hv. by eexists. }
  exists e. unfold initialize_project, materialize.
  erewrite bind_Raise; [done |]. by erewrite bind_Raise.
Qed.

(** C8: for every configuration record without the [venv_dir] field the
    workflow raises a [KeyError], in a world that is exactly the world it
    started in: nothing was deleted, created, logged or run.  When the two
    fields read before it are there, the key is [venv_dir]. *)
Theorem missing_venv_dir_fails_first (fields : gmap string string) (w : world) :
  fields !! "venv_dir" = None ->
  exists key,
    initialize_project (record fields) w = (Raise (KeyError key), w)
    /\ (is_Some (fields !! "project_name") -> is_Some (fields !! "project_dir") ->
        key = "venv_dir").
Proof.
  intros Hv.
  assert (exists key,
    derive_paths (record fields) w = (Raise (KeyError key), w)
    /\ (is_Some (fields !! "project_name") -> is_Some (fields !! "project_dir") ->
        key = "venv_dir")) as (key & Hd & Hkey).
  { unfold derive_paths, bind. rewrite record_lookup.
    destruct (fields !! "project_name") as [name|] eqn:Hn; cycle 1.
    { exists "project_name". split; [done |]. by intros [? ?]. }
    rewrite record_lookup.
    destruct (fields !! "project_dir") as [root|] eqn:Hr; cycle 1.
    { exists "project_dir". split; [done |]. by intros _ [? ?]. }
    unfold Path_of, truediv, ret. cbv beta iota. rewrite record_lookup, Hv.
    by exists "venv_dir". }
  exists key. split; [| done].
  unfold initialize_project, materialize.
  erewrite bind_Raise; [done |]. by erewrite bind_Raise.
Qed.

(** ** The five commands *)

Lemma derive_paths_record fields name root venv w :
  fields !! "project_name" = Some name ->
  fields !! "project_dir" = Some root ->
  fields !! "venv_dir" = Some venv ->
  derive_paths (record fields) w
  = (Ret (mkPaths (joinpath (PurePath root) name)
            (joinpath (joinpath (PurePath root) name) "templates")
            (joinpath (joinpath (PurePath root) name) venv)), w).
Proof.
  intros Hn Hr Hv. unfold derive_paths, bind.
  rewrite record_lookup, Hn, record_lookup, Hr.
  unfold Path_of, truediv, ret. cbv beta iota. by rewrite record_lookup, Hv.
Qed.

Lemma materialize_paths config w made w' :
  materialize config w = (Ret made, w') -> derive_paths config w = (Ret made.1, w).
Proof.
  unfold materialize. intros (paths & w1 & Hd & H)%bind_Ret_inv.
  pose proof (derive_paths_Ret _ _ _ _ Hd) as (-> & _).
  apply bind_Ret_inv in H as ([] & w2 & _ & H).
  apply bind_Ret_inv in H as ([] & w3 & _ & H).
  apply bind_Ret_inv in H as (outs & w4 & _ & H).
  by injection H as <- <-.
Qed.

Lemma requirements_eq fields req pd w :
  fields !! "requirements_file" = Some req ->
  bind (getitem (record fields) "requirements_file") (truediv pd) w
  = (Ret (joinpath pd req), w).
Proof. intros Hreq. unfold bind. by rewrite record_lookup, Hreq. Qed.

Lemma old_path_eq old venv w :
  environ !! "PATH" = Some old ->
  env_getitem (<["VIRTUAL_ENV" := venv]> environ) "PATH" w = (Ret old, w).
Proof.
  intros Hold. unfold env_getitem. rewrite lookup_insert_ne by done. by rewrite Hold.
Qed.

(** The commands of [build_and_package] are issued one after the other;
    the first that makes [run_command] raise is the last one issued. *)
Lemma build_and_package_calls fields req old pd vd w o w' :
  fields !! "requirements_file" = Some req ->
  environ !! "PATH" = Some old ->
  build_and_package (record fields) pd vd
    (joinpath pd "redzer.spec") (joinpath pd "redzer_installer.iss") w = (o, w') ->
  exists n,
    calls w' = calls w ++ take n (workflow_calls pd vd req old)
    /\ (o = Ret tt -> n = 5%nat).
Proof.
  intros Hreq Hold. unfold build_and_package.
  match goal with
  | |- context [bind (run_command ?c ?e) _ w] =>
      destruct (run_command c e w) as [[[]|e1] w1] eqn:E1
  end; cycle 1.
  { erewrite bind_Raise by exact E1. intros [= <- <-].
    apply run_command_calls in E1. exists 1%nat. by split. }
  erewrite bind_Ret by exact E1.
  erewrite bind_Ret by (by apply requirements_eq). cbv zeta.
  erewrite bind_Ret by (by apply old_path_eq).
  match goal with
  | |- context [bind (run_command ?c ?e) _ w1] =>
      destruct (run_command c e w1) as [[[]|e2] w2] eqn:E2
  end; cycle 1.
  { erewrite bind_Raise by exact E2. intros [= <- <-].
    apply run_command_calls in E1, E2. exists 2%nat. split; [| done].
    rewrite E2, E1. by rewrite <- app_assoc. }
  erewrite bind_Ret by exact E2.
  match goal with
  | |- context [bind (run_command ?c ?e) _ w2] =>
      destruct (run_command c e w2) as [[[]|e3] w3] eqn:E3
  end; cycle 1.
  { erewrite bind_Raise by exact E3. intros [= <- <-].
    apply run_command_calls in E1, E2, E3. exists 3%nat. split; [| done].
    rewrite E3, E2, E1. by rewrite <- !app_assoc. }
  erewrite bind_Ret by exact E3.
  match goal with
  | |- context [bind (run_command ?c ?e) _ w3] =>
      destruct (run_command c e w3) as [[[]|e4] w4] eqn:E4
  end; cycle 1.
  { erewrite bind_Raise by exact E4. intros [= <- <-].
    apply run_command_calls in E1, E2, E3, E4. exists 4%nat. split; [| done].
    rewrite E4, E3, E2, E1. by rewrite <- !app_assoc. }
  erewrite bind_Ret by exact E4.
  intros E5. apply run_command_calls in E1, E2, E3, E4, E5.
  exists 5%nat. split; [| done].
  rewrite E5, E4, E3, E2, E1. by rewrite <- !app_assoc.
Qed.

(** For a configuration record with its four fields, in a process that
    has a [PATH], the commands the workflow issues are an initial segment
    of the five; a run that returns has issued all five. *)
Lemma commands_are_an_initial_segment (fields : gmap string string)
    (name root venv requirements old_path : string) (w w' : world) (o : outcome unit) :
  fields !! "project_name" = Some name ->
  fields !! "project_dir" = Some root ->
  fields !! "venv_dir" = Some venv ->
  fields !! "requirements_file" = Some requirements ->
  environ !! "PATH" = Some old_path ->
  initialize_project (record fields) w = (o, w') ->
  let project_dir := joinpath (PurePath root) name in
  let venv_dir := joinpath project_dir venv in
  exists n,
    calls w' = calls w
               ++ take n (workflow_calls project_dir venv_dir requirements old_path)
    /\ (o = Ret tt -> n = 5%nat).
Proof.
  intros Hn Hr Hv Hreq Hold H pd vd. unfold initialize_project in H.
  destruct (materialize (record fields) w) as [[made|e] wm] eqn:Em; cycle 1.
  { erewrite bind_Raise in H by exact Em. injection H as <- <-.
    apply quiet_materialize in Em. exists 0%nat. split; [| done].
    by rewrite Em, take_0, app_nil_r. }
  erewrite bind_Ret in H by exact Em.
  pose proof (materialize_paths _ _ _ _ Em) as Hd.
  rewrite (derive_paths_record _ _ _ _ _ Hn Hr Hv) in Hd. injection Hd as Hd.
  pose proof (materialize_Ret _ _ _ _ Em) as (Hout & Hcalls & _).
  rewrite Hout, <- Hd in H. cbn [fst snd project_dir_of venv_dir_of] in H.
  fold pd vd in H.
  destruct (build_and_package (record fields) pd vd (joinpath pd "redzer.spec")
              (joinpath pd "redzer_installer.iss") wm) as [[[]|e] wb] eqn:Eb.
  - erewrite bind_Ret in H by exact Eb. injection H as <- <-. simpl.
    apply (build_and_package_calls _ _ _ _ _ _ _ _ Hreq Hold) in Eb as (n & Hc & Hn5).
    exists n. by rewrite Hc, Hcalls.
  - erewrite bind_Raise in H by exact Eb. injection H as <- <-.
    apply (build_and_package_calls _ _ _ _ _ _ _ _ Hreq Hold) in Eb as (n & Hc & Hn5).
    exists n. by rewrite Hc, Hcalls.
Qed.

(** * Further properties of the script *)

(** ** write_file and read_file *)

Lemma open_write_named p c w w' :
  open_write p c w = (Ret tt, w') -> resolve p <> [].
Proof.
  unfold open_write, get_files, bind, ret. simpl. intros H E.
  rewrite E in H. simpl in H. discriminate.
Qed.

(** X1: a text without carriage returns that [write_file] has written is
    what [read_file] reads back from the same path, under either newline
    convention, and reading changes nothing. *)
Theorem write_then_read (filepath : Path) (content : string) (w w' : world) :
  mentions cr content = false ->
  write_file filepath content w = (Ret tt, w') ->
  read_file filepath w' = (Ret content, w').
Proof.
  intros Hcr H. unfold write_file in H.
  apply bind_Ret_inv in H as ([] & w1 & Hw & H).
  pose proof (open_write_named _ _ _ _ Hw) as Hne.
  apply open_write_Ret in Hw as ->. injection H as <-.
  unfold read_file, open_read, get_files, bind, ret. cbn [files].
  rewrite stat_lookup by done. rewrite lookup_insert_eq.
  by rewrite read_after_write.
Qed.

(** X2: [write_file] is all or nothing, for a path written without [..].
    It returns exactly when the parent of the path is a directory and the
    path is not one; then the one entry at the path holds the text with
    its newlines translated, every other entry is as before, and one
    [Created] record is logged.  Otherwise it raises and the world, log
    included, is as it was. *)
Theorem write_file_all_or_nothing (filepath : Path) (content : string)
    (w w' : world) (o : outcome unit) :
  plain filepath ->
  write_file filepath content w = (o, w') ->
  let writable :=
    stat (files w) (resolve filepath) <> Some Dir
    /\ stat (files w) (parent (resolve filepath)) = Some Dir in
  (writable ->
   o = Ret tt
   /\ w' = mkWorld (<[resolve filepath := File (write_newlines linesep content)]> (files w))
             (logs w ++ [(INFO, "Created " +:+ str filepath)]) (calls w))
  /\ (~ writable -> (exists e, o = Raise e) /\ w' = w).
Proof.
  unfold write_file, open_write, get_files, set_files, logging, bind, ret, throw.
  simpl. intros _ H.
  destruct (stat (files w) (resolve filepath)) as [[b|]|] eqn:Hl;
    destruct (stat (files w) (parent (resolve filepath))) as [[b'|]|] eqn:Hp;
    injection H as <- <-; split;
    first [ by intros [? ?] | intros Hn; exfalso; apply Hn; by split
          | intros _; split; [eauto | done] | done ].
Qed.

(** ** run_command *)

Lemma run_command_eq cmd env w :
  let r := subprocess_run (length (calls w)) cmd env (files w) in
  run_command cmd env w
  = (if utf8_valid (logged_stream r) then Ret tt else Raise UnicodeDecodeError,
     mkWorld (files_after r)
       (logs w ++ (if utf8_valid (logged_stream r) then command_log cmd r
                   else take 1 (command_log cmd r)))
       (calls w ++ [mkCall cmd env])).
Proof.
  intros r. unfold run_command, run, decode, decode_utf8, logging, bind, ret, throw,
    logged_stream, command_log. simpl. fold r.
  destruct (decide (returncode r = 0)).
  - destruct (utf8_valid (stdout r)); simpl; by rewrite <- ?app_assoc.
  - destruct (utf8_valid (stderr r)); simpl; by rewrite <- ?app_assoc.
Qed.

(** X3: where the stream it logs is UTF-8, [run_command] returns whatever
    the exit status of the command: the command has been issued once, the
    tree is the one the command left, and exactly two records are logged:
    at level INFO the success line and the standard output of a command
    that exited with 0, at level ERROR the failure line and the standard
    error of any other; the other stream is not logged. *)
Theorem run_command_logs_and_returns (cmd : string) (env : option environment)
    (w : world) :
  let r := subprocess_run (length (calls w)) cmd env (files w) in
  (returncode r = 0 -> utf8_valid (stdout r) = true) ->
  (returncode r <> 0 -> utf8_valid (stderr r) = true) ->
  run_command cmd env w
  = (Ret tt,
     mkWorld (files_after r)
       (logs w ++ (if decide (returncode r = 0)
                   then [(INFO, "Command succeeded: " +:+ cmd); (INFO, stdout r)]
                   else [(ERROR, "Command failed: " +:+ cmd); (ERROR, stderr r)]))
       (calls w ++ [mkCall cmd env])).
Proof.
  intros r Hout Herr. rewrite run_command_eq. fold r.
  unfold logged_stream, command_log.
  destruct (decide (returncode r = 0)) as [Hz|Hz].
  - by rewrite (Hout Hz).
  - by rewrite (Herr Hz).
Qed.

(** X4: [run_command] either returns or raises [UnicodeDecodeError], and
    it raises exactly when the stream it logs (standard output after exit
    status 0, standard error otherwise) is not UTF-8; so a command that
    succeeded can stop the workflow too.  When it raises, the command has
    run all the same and only the first of its two records is logged. *)
Theorem run_command_raises_on_undecodable (cmd : string) (env : option environment)
    (w w' : world) (o : outcome unit) :
  run_command cmd env w = (o, w') ->
  let r := subprocess_run (length (calls w)) cmd env (files w) in
  (o = Ret tt \/ o = Raise UnicodeDecodeError)
  /\ (o = Raise UnicodeDecodeError <->
      utf8_valid (if decide (returncode r = 0) then stdout r else stderr r) = false)
  /\ files w' = files_after r
  /\ calls w' = calls w ++ [mkCall cmd env]
  /\ (o = Raise UnicodeDecodeError ->
      logs w' = logs w ++ [if decide (returncode r = 0)
                           then (INFO, "Command succeeded: " +:+ cmd)
                           else (ERROR, "Command failed: " +:+ cmd)]).
Proof.
  rewrite run_command_eq. intros H r. fold r in H.
  unfold logged_stream, command_log in H.
  destruct (decide (returncode r = 0));
    match type of H with
    | context [utf8_valid ?x] => destruct (utf8_valid x)
    end; injection H as <- <-; simpl; repeat split; eauto; try done;
    intros [= ?].
Qed.

(** ** load_config *)

(** X5: whatever its outcome, [load_config] leaves the tree as it was and
    issues no command; it logs nothing unless it ends the process with
    exit status 1. *)
Theorem load_config_only_reads (config_file : string) (w w' : world)
    (o : outcome yaml) :
  load_config config_file w = (o, w') ->
  files w' = files w
  /\ calls w' = calls w
  /\ (logs w' = logs w \/ o = Raise (SystemExit 1)).
Proof.
  destruct (os_stat (files w) config_file) as [failure|[l [b|]]] eqn:E.
  - rewrite load_config_missing by (unfold os_exists; by rewrite E).
    intros [= <- <-]. eauto.
  - rewrite (load_config_file _ _ l b) by done. intros [= <- <-]. eauto.
  - rewrite (load_config_directory _ _ l) by done. intros [= <- <-]. eauto.
Qed.

(** X6: a configuration path that names a directory makes [load_config]
    raise [IsADirectoryError]; a configuration file that the parser
    rejects makes it raise the parser's error, and one that the codec
    cannot decode the [UnicodeDecodeError] of the codec.  In all three
    cases the world is untouched: nothing is logged, deleted or run, and
    the process does not go through [exit]. *)
Theorem unreadable_configuration_raises (config_file : string) (l : location)
    (w : world) :
  (os_stat (files w) config_file = inr (l, Dir) ->
   load_config config_file w = (Raise (IsADirectoryError l), w))
  /\ (forall bytes,
        os_stat (files w) config_file = inr (l, File bytes) ->
        (safe_load bytes = Malformed ->
         load_config config_file w = (Raise YAMLError, w))
        /\ (safe_load bytes = Undecodable ->
            load_config config_file w = (Raise UnicodeDecodeError, w))).
Proof.
  split.
  - intros Hd. by apply load_config_directory.
  - intros b Hf.
    split; intros Hy; rewrite (load_config_file _ _ l b) by done; by rewrite Hy.
Qed.

(** ** initialize_project: when the configuration is checked *)

Lemma run_command_outcome cmd env w o w' :
  run_command cmd env w = (o, w') -> o = Ret tt \/ o = Raise UnicodeDecodeError.
Proof.
  rewrite run_command_eq. intros [= <- _].
  destruct (utf8_valid _); eauto.
Qed.

(** Without a requirements file or without a [PATH], [build_and_package]
    stops after its first command. *)
Lemma build_and_package_late fields pd vd sp ip w o w' :
  fields !! "requirements_file" = None \/ environ !! "PATH" = None ->
  build_and_package (record fields) pd vd sp ip w = (o, w') ->
  (o = Raise (KeyError (match fields !! "requirements_file" with
                        | None => "requirements_file"
                        | Some _ => "PATH"
                        end))
   \/ o = Raise UnicodeDecodeError)
  /\ calls w' = calls w ++ [mkCall ("python -m venv " +:+ str vd) None]
  /\ files w'
     = files_after (subprocess_run (length (calls w)) ("python -m venv " +:+ str vd)
                      None (files w)).
Proof.
  intros Hlate. unfold build_and_package.
  match goal with
  | |- context [bind (run_command ?c ?e) _ w] =>
      destruct (run_command c e w) as [[[]|e1] w1] eqn:E1
  end; cycle 1.
  { erewrite bind_Raise by exact E1. intros [= <- <-].
    pose proof (run_command_outcome _ _ _ _ _ E1) as [? | ->]; [done |].
    split; [by right |].
    split; [by eapply run_command_calls | by eapply run_command_files]. }
  erewrite bind_Ret by exact E1.
  pose proof (run_command_calls _ _ _ _ _ E1) as Hc.
  pose proof (run_command_files _ _ _ _ _ E1) as Hf.
  destruct (fields !! "requirements_file") as [req|] eqn:Hreq.
  - destruct Hlate as [? | Hpath]; [done |].
    erewrite bind_Ret by (by apply requirements_eq). cbv zeta.
    erewrite bind_Raise; cycle 1.
    { unfold env_getitem. rewrite lookup_insert_ne by done. by rewrite Hpath. }
    intros [= <- <-]. split; [by left | done].
  - erewrite bind_Raise; cycle 1.
    { unfold bind. by rewrite record_lookup, Hreq. }
    intros [= <- <-]. split; [by left | done].
Qed.

(** X7: the requirements file of the configuration and the [PATH] of the
    process are looked up only after the project directory has been reset,
    the files written and the environment creation run.  Where the
    file-writing steps return and either is missing, the workflow raises
    the [KeyError] of the missing key (unless the environment creation
    already made [run_command] raise), having issued exactly that one
    command on the rewritten tree. *)
Theorem late_lookups_fail_after_the_reset (fields : gmap string string)
    (w wm w' : world) (made : project_paths * (Path * Path)) (o : outcome unit) :
  fields !! "requirements_file" = None \/ environ !! "PATH" = None ->
  materialize (record fields) w = (Ret made, wm) ->
  initialize_project (record fields) w = (o, w') ->
  let venv_command := "python -m venv " +:+ str (venv_dir_of made.1) in
  (o = Raise (KeyError (match fields !! "requirements_file" with
                        | None => "requirements_file"
                        | Some _ => "PATH"
                        end))
   \/ o = Raise UnicodeDecodeError)
  /\ calls w' = calls w ++ [mkCall venv_command None]
  /\ files w'
     = files_after (subprocess_run (length (calls w)) venv_command None (files wm)).
Proof.
  intros Hlate Hm H. pose proof (quiet_materialize _ _ _ _ Hm) as Hq.
  unfold initialize_project in H. erewrite bind_Ret in H by exact Hm.
  match type of H with
  | bind (build_and_package ?c ?pd ?vd ?sp ?ip) _ _ = _ =>
      destruct (build_and_package c pd vd sp ip wm) as [[[]|e] wb] eqn:Eb
  end.
  - apply (build_and_package_late _ _ _ _ _ _ _ _ Hlate) in Eb as ([? | ?] & _); done.
  - erewrite bind_Raise in H by exact Eb. injection H as <- <-.
    apply (build_and_package_late _ _ _ _ _ _ _ _ Hlate) in Eb as (Ho & Hc & Hf).
    rewrite Hq in Hc, Hf. done.
Qed.

(** X8: when the file-writing steps raise, the workflow raises the same
    exception in the same world and no external command has been issued:
    no tool is ever run on a project directory that was not completely
    written. *)
Theorem no_command_before_the_files (config : yaml) (w wm : world) (e : exn) :
  materialize config w = (Raise e, wm) ->
  initialize_project config w = (Raise e, wm) /\ calls wm = calls w.
Proof.
  intros Hm. split; [| by eapply quiet_materialize].
  unfold initialize_project. by erewrite bind_Raise by exact Hm.
Qed.

(** ** initialize_project: targets that cannot be reset *)

Lemma materialize_reset fields name root venv w :
  fields !! "project_name" = Some name ->
  fields !! "project_dir" = Some root ->
  fields !! "venv_dir" = Some venv ->
  let pd := joinpath (PurePath root) name in
  materialize (record fields) w
  = bind (create_directories pd (joinpath pd "templates"))
      (fun _ => outputs <- write_outputs pd (joinpath pd "templates") ;;
                ret (mkPaths pd (joinpath pd "templates") (joinpath pd venv), outputs))
      (mkWorld (files w) (logs w ++ [(INFO, "Initializing project...")]) (calls w)).
Proof.
  intros Hn Hr Hv pd. unfold materialize.
  erewrite bind_Ret by (by apply derive_paths_record).
  by erewrite bind_Ret by apply logging_eq.
Qed.

(** X9: when a regular file stands where the project directory should
    be, the workflow logs that it removes the directory and then raises
    [NotADirectoryError] from [shutil.rmtree]: the file is still there,
    nothing was created and no command was issued. *)
Theorem a_file_in_place_of_the_project_directory
    (fields : gmap string string) (name root venv bytes : string) (w : world) :
  fields !! "project_name" = Some name ->
  fields !! "project_dir" = Some root ->
  fields !! "venv_dir" = Some venv ->
  let project_dir := joinpath (PurePath root) name in
  stat (files w) (resolve project_dir) = Some (File bytes) ->
  initialize_project (record fields) w
  = (Raise (NotADirectoryError (resolve project_dir)),
     mkWorld (files w)
       (logs w ++ [(INFO, "Initializing project...");
                   (INFO, "Removing existing project directory: " +:+ str project_dir)])
       (calls w)).
Proof.
  intros Hn Hr Hv pd Hf. unfold initialize_project.
  erewrite bind_Raise; [done |].
  rewrite (materialize_reset _ _ _ _ _ Hn Hr Hv). fold pd.
  erewrite bind_Raise; [done |]. unfold create_directories.
  erewrite bind_Raise; [| by apply (reset_tree_file _ _ bytes)].
  cbn [files logs calls]. by rewrite <- app_assoc.
Qed.

(** X10: a configuration whose project path has no names and no root
    (for instance [project_dir: .] with [project_name: .]) names the working
    directory itself.  From a sane world the workflow then empties the
    working directory, everything below it is gone and everything beside
    it is kept, and raises the [OSError] of [shutil.rmtree], which cannot
    remove [.]; no command is issued and nothing is created. *)
Theorem the_working_directory_is_emptied
    (fields : gmap string string) (name root venv : string) (w : world) :
  fields !! "project_name" = Some name ->
  fields !! "project_dir" = Some root ->
  fields !! "venv_dir" = Some venv ->
  anchored (joinpath (PurePath root) name) = false ->
  parts (joinpath (PurePath root) name) = [] ->
  sane w ->
  exists w',
    initialize_project (record fields) w = (Raise (OSError cwd), w')
    /\ (forall k, k <> cwd ->
          files w' !! k = if is_prefix cwd k then None else files w !! k)
    /\ calls w' = calls w.
Proof.
  intros Hn Hr Hv Ha Hp Hsane.
  set (pd := joinpath (PurePath root) name) in *.
  assert (resolve pd = cwd) as Hcwd.
  { unfold resolve. by rewrite Ha, Hp, app_nil_r. }
  pose proof (unnamed_exists pd w Hsane Hp) as Hd.
  eexists. split; [| split].
  - unfold initialize_project. erewrite bind_Raise; [done |].
    rewrite (materialize_reset _ _ _ _ _ Hn Hr Hv). fold pd.
    erewrite bind_Raise; [done |]. unfold create_directories.
    erewrite bind_Raise; [| by apply reset_tree_unnamed]. by rewrite Hcwd.
  - intros k Hk. cbn [files]. rewrite empty_out_lookup, ?Hcwd.
    by destruct (decide (k = cwd)).
  - done.
Qed.

(** ** How the paths are derived *)

Lemma resolve_joinpath_relative p s :
  starts_with_slash s = false -> resolve (joinpath p s) = resolve p ++ names_of s.
Proof.
  intros Hs. unfold joinpath, PurePath, resolve. simpl. rewrite Hs. simpl.
  destruct (anchored p); [done | by rewrite app_assoc].
Qed.

Lemma joinpath_absolute p s :
  starts_with_slash s = true -> joinpath p s = PurePath s.
Proof. intros Hs. unfold joinpath, PurePath. simpl. by rewrite Hs. Qed.

(** X11: the project directory is [project_dir / project_name] and the
    environment directory [project_dir / venv_dir] in the sense of
    [pathlib]: a relative value is appended, so that the environment lies
    at or below the project directory; a value that starts with a slash
    replaces what stands before it, so that an absolute [project_name]
    makes the configured [project_dir] irrelevant and an absolute
    [venv_dir] puts the environment outside the project directory. *)
Theorem absolute_values_replace_the_prefix
    (fields : gmap string string) (name root venv : string) (w : world) :
  fields !! "project_name" = Some name ->
  fields !! "project_dir" = Some root ->
  fields !! "venv_dir" = Some venv ->
  exists paths,
    derive_paths (record fields) w = (Ret paths, w)
    /\ (starts_with_slash name = true -> project_dir_of paths = PurePath name)
    /\ (starts_with_slash name = false ->
        resolve (project_dir_of paths) = resolve (PurePath root) ++ names_of name)
    /\ (starts_with_slash venv = true -> venv_dir_of paths = PurePath venv)
    /\ (starts_with_slash venv = false ->
        resolve (venv_dir_of paths) = resolve (project_dir_of paths) ++ names_of venv).
Proof.
  intros Hn Hr Hv. eexists. split; [by apply derive_paths_record |].
  cbn [project_dir_of venv_dir_of].
  split; [apply joinpath_absolute |]. split; [apply resolve_joinpath_relative |].
  split; [apply joinpath_absolute | apply resolve_joinpath_relative].
Qed.

(** ** Which keys are read *)

Lemma bind_ext {A B} (m m' : M A) (k k' : A -> M B) w :
  (forall v, m v = m' v) -> (forall a v, k a v = k' a v) ->
  bind m k w = bind m' k' w.
Proof.
  intros Hm Hk. unfold bind. rewrite Hm. destruct (m' w) as [[a|e] w1]; [apply Hk | done].
Qed.

Lemma getitem_agree fields fields' key w :
  fields !! key = fields' !! key ->
  getitem (record fields) key w = getitem (record fields') key w.
Proof. intros H. by rewrite !record_lookup, H. Qed.

(** X12: the workflow reads the four keys [project_name], [project_dir],
    [venv_dir] and [requirements_file] and no other: two configuration
    records that agree on these four make it behave the same in every
    world, so that an unknown or misspelt key is silently ignored. *)
Theorem other_keys_are_ignored (fields fields' : gmap string string) (w : world) :
  fields !! "project_name" = fields' !! "project_name" ->
  fields !! "project_dir" = fields' !! "project_dir" ->
  fields !! "venv_dir" = fields' !! "venv_dir" ->
  fields !! "requirements_file" = fields' !! "requirements_file" ->
  initialize_project (record fields) w = initialize_project (record fields') w.
Proof.
  intros Hn Hr Hv Hq. unfold initialize_project.
  apply bind_ext.
  - intros v. unfold materialize. apply bind_ext; [| done].
    intros v'. unfold derive_paths.
    apply bind_ext; [intros; by apply getitem_agree |]. intros a1 v1.
    apply bind_ext; [intros; apply bind_ext; [intros; by apply getitem_agree | done] |].
    intros a2 v2. apply bind_ext; [done |]. intros a3 v3.
    apply bind_ext; [intros; apply bind_ext; [intros; by apply getitem_agree | done] |].
    done.
  - intros made v. apply bind_ext; [| done].
    intros v'. unfold build_and_package.
    apply bind_ext; [done |]. intros a1 v1.
    apply bind_ext; [intros; apply bind_ext; [intros; by apply getitem_agree | done] |].
    done.
Qed.

(** ** What the file-writing steps leave alone *)

Lemma is_prefix_trans l m k :
  is_prefix l m = true -> is_prefix m k = true -> is_prefix l k = true.
Proof.
  intros [r ->]%is_prefix_spec [r' ->]%is_prefix_spec.
  rewrite <- app_assoc. apply is_prefix_app.
Qed.

Lemma outside_not_below l m k :
  is_prefix l m = true -> is_prefix l k = false -> is_prefix m k = false.
Proof.
  intros Hlm Hk. destruct (is_prefix m k) eqn:E; [| done].
  by rewrite (is_prefix_trans _ _ _ Hlm E) in Hk.
Qed.

Lemma keeps_same {A} l (m : M A) :
  (forall w o w', m w = (o, w') -> files w' = files w) -> keeps_outside l m.
Proof. intros Hm w o w' k H _. apply Hm in H. rewrite H. eauto. Qed.

Lemma keeps_ret {A} l (a : A) : keeps_outside l (ret a).
Proof. apply keeps_same. by intros w o w' [= <- <-]. Qed.

Lemma keeps_throw {A} l e : keeps_outside l (@throw A e).
Proof. apply keeps_same. by intros w o w' [= <- <-]. Qed.

Lemma keeps_logging l lv msg : keeps_outside l (logging lv msg).
Proof. apply keeps_same. by intros w o w' [= <- <-]. Qed.

Lemma keeps_Path_exists l p : keeps_outside l (Path_exists p).
Proof. apply keeps_same. by intros w o w' [= <- <-]. Qed.

Lemma keeps_open_read l p : keeps_outside l (open_read p).
Proof.
  apply keeps_same. intros w o w'.
  unfold open_read, get_files, bind, ret, throw. simpl.
  repeat case_match; by intros [= <- <-].
Qed.

Lemma keeps_bind {A B} l (m : M A) (k : A -> M B) :
  keeps_outside l m -> (forall a, keeps_outside l (k a)) -> keeps_outside l (bind m k).
Proof.
  intros Hm Hk w o w' x H Hx. unfold bind in H.
  destruct (m w) as [[a|e] w1] eqn:E.
  - destruct (Hm _ _ _ _ E Hx) as [K1 N1]. destruct (Hk a _ _ _ _ H Hx) as [K2 N2].
    split; [eauto |]. intros v Hv. apply N2 in Hv as [Hv | ->]; [| by right]. eauto.
  - injection H as <- <-. by eapply Hm.
Qed.

Lemma keeps_lift_tree l f :
  (forall t t', f t = Ret t' -> exists d, grows d t t') -> keeps_outside l (lift_tree f).
Proof.
  intros Hf w o w' k H _. unfold lift_tree in H.
  destruct (f (files w)) as [t|e] eqn:E; injection H as <- <-; [| eauto].
  apply Hf in E as (d & _ & _ & Hkeep & Hnew). cbn [files]. eauto.
Qed.

Lemma keeps_Path_mkdir l parents p : keeps_outside l (Path_mkdir parents p).
Proof.
  unfold Path_mkdir. destruct parents; apply keeps_lift_tree; intros t t' H.
  - apply mkdir_parents_grows in H as [? _]. eauto.
  - apply mkdir_plain_grows in H as [? _]. eauto.
Qed.

Lemma keeps_rmtree l p :
  is_prefix l (resolve p) = true -> keeps_outside l (rmtree p).
Proof.
  intros Hl w o w' k H Hk.
  pose proof (outside_not_below _ _ _ Hl Hk) as Hout.
  unfold rmtree, get_files, set_files, bind, ret, throw in H. simpl in H.
  destruct (stat (files w) (resolve p)) as [[b|]|];
    [injection H as <- <-; eauto | | injection H as <- <-; eauto].
  destruct (decide (parts p = [])); injection H as <- <-; cbn [files].
  - rewrite empty_out_lookup, Hout. destruct (decide (k = resolve p)); eauto.
  - rewrite prune_lookup, Hout; eauto.
Qed.

Lemma keeps_open_write l p c :
  is_prefix l (resolve p) = true -> keeps_outside l (open_write p c).
Proof.
  intros Hl w o w' k H Hk.
  assert (resolve p <> k) as Hne by (intros <-; congruence).
  unfold open_write, get_files, set_files, bind, ret, throw in H. simpl in H.
  destruct (stat (files w) (resolve p)) as [[b|]|];
    destruct (stat (files w) (parent (resolve p))) as [[b'|]|];
    injection H as <- <-; cbn [files]; rewrite ?lookup_insert_ne by done; eauto.
Qed.

Lemma keeps_write_file l p c :
  is_prefix l (resolve p) = true -> keeps_outside l (write_file p c).
Proof.
  intros Hl. unfold write_file. apply keeps_bind; [by apply keeps_open_write |].
  intros _. apply keeps_logging.
Qed.

Lemma below_child l p n :
  starts_with_slash n = false -> names_of n = [n] ->
  is_prefix l (resolve p) = true -> is_prefix l (resolve (joinpath p n)) = true.
Proof.
  intros Hs Hn Hl. rewrite resolve_child by done.
  eapply is_prefix_trans; [exact Hl | apply is_prefix_app].
Qed.

Lemma keeps_reset_tree p : keeps_outside (resolve p) (reset_tree p).
Proof.
  unfold reset_tree, make_tree.
  repeat first
    [ apply keeps_Path_exists | apply keeps_logging
    | apply keeps_Path_mkdir | apply keeps_ret
    | apply keeps_rmtree; apply is_prefix_refl
    | apply keeps_bind
    | match goal with |- forall _, _ => intro end
    | case_match ].
Qed.

Lemma keeps_create_directories p :
  keeps_outside (resolve p) (create_directories p (joinpath p "templates")).
Proof.
  unfold create_directories. apply keeps_bind; [apply keeps_reset_tree |].
  intros _. unfold template_files. cbn [write_all].
  repeat first
    [ apply keeps_ret
    | apply keeps_write_file; repeat (apply below_child; [done | done |]);
      apply is_prefix_refl
    | apply keeps_bind
    | match goal with |- forall _, _ => intro end ].
Qed.

Lemma keeps_write_outputs p :
  keeps_outside (resolve p) (write_outputs p (joinpath p "templates")).
Proof.
  unfold write_outputs, instantiate, read_file.
  repeat first
    [ apply keeps_ret | apply keeps_open_read
    | apply keeps_write_file; repeat (apply below_child; [done | done |]);
      apply is_prefix_refl
    | apply keeps_bind
    | match goal with |- forall _, _ => intro end ].
Qed.

(** X13: the file-writing steps are confined to the project directory,
    for a project path written without [..].  Whatever their outcome, also
    when they raise half way, an entry of the tree that is not at or below
    the project directory is still there with the same content afterwards,
    and the only entries that can appear outside are directories (the
    missing parents of the project directory). *)
Theorem file_writing_is_confined (config : yaml) (paths : project_paths)
    (w w' : world) (o : outcome (project_paths * (Path * Path))) (k : location) :
  derive_paths config w = (Ret paths, w) ->
  plain (project_dir_of paths) ->
  materialize config w = (o, w') ->
  is_prefix (resolve (project_dir_of paths)) k = false ->
  (forall v, files w !! k = Some v -> files w' !! k = Some v)
  /\ (forall v, files w' !! k = Some v -> files w !! k = Some v \/ v = Dir).
Proof.
  intros Hd _ H Hk. unfold materialize in H.
  erewrite bind_Ret in H by exact Hd.
  pose proof (derive_paths_Ret _ _ _ _ Hd) as (_ & Htd & _).
  rewrite Htd in H. revert H Hk.
  generalize (project_dir_of paths). intros p H Hk.
  assert (keeps_outside (resolve p)
            (logging INFO "Initializing project..." ;;
             create_directories p (joinpath p "templates") ;;
             outputs <- write_outputs p (joinpath p "templates") ;;
             ret (paths, outputs))) as Hkeeps.
  { repeat first
      [ apply keeps_ret | apply keeps_logging
      | apply keeps_create_directories | apply keeps_write_outputs
      | apply keeps_bind
      | match goal with |- forall _, _ => intro end ]. }
  exact (Hkeeps _ _ _ _ H Hk).
Qed.

(** ** When the file-writing steps succeed *)

(** The reset returns where the path has a name and no regular file is in
    the way. *)
Lemma reset_tree_succeeds p w :
  sane w -> parts p <> [] ->
  (forall k c, is_prefix k (resolve p) = true -> stat (files w) k <> Some (File c)) ->
  exists w', reset_tree p w = (Ret tt, w').
Proof.
  intros Hsane Hp Hfiles. pose proof Hsane as [Hwf Hcwd].
  pose proof (resolve_nonempty p Hp) as Hne.
  destruct (stat (files w) (resolve p)) as [[c|]|] eqn:Hl.
  - exfalso. eapply Hfiles; [apply is_prefix_refl | done].
  - eexists. apply reset_tree_again; [done | | done].
    rewrite stat_lookup in Hl by done. by eapply well_formed_parent.
  - destruct (mkdir_parents_succeeds false (anchored p) (rev (parts p)) (files w))
      as [t1 E].
    { by right. }
    { by rewrite resolve_rev_rev. }
    { right. by rewrite resolve_rev_rev. }
    eexists. rewrite reset_tree_missing by done. apply make_tree_eq; [| done].
    intros r _. by apply well_formed_below.
Qed.

Lemma instantiate_fresh project_dir template_dir template output b w :
  starts_with_slash template = false -> names_of template = [template] ->
  starts_with_slash output = false -> names_of output = [output] ->
  files w !! (resolve template_dir ++ [template]) = Some (File b) ->
  files w !! (resolve project_dir ++ [output]) = None ->
  stat (files w) (resolve project_dir) = Some Dir ->
  instantiate project_dir template_dir template output w
  = (Ret (joinpath project_dir output),
     mkWorld (<[resolve project_dir ++ [output]
                := File (write_newlines linesep (read_newlines b))]> (files w))
       (logs w ++ [(INFO, "Created " +:+ str (joinpath project_dir output))])
       (calls w)).
Proof.
  intros Ht Ht' Ho Ho' Hb Hn Hd. unfold instantiate.
  erewrite bind_Ret; cycle 1.
  { unfold read_file, open_read, get_files, bind, ret. simpl.
    rewrite resolve_child, stat_snoc by done. by rewrite Hb. }
  erewrite bind_Ret; cycle 1.
  { apply write_file_fresh; rewrite resolve_child by done.
    - by rewrite stat_snoc.
    - by rewrite parent_snoc. }
  by rewrite resolve_child by done.
Qed.

Lemma stat_insert_other (t : tree) (l : location) r r' v :
  r <> r' -> stat (<[l ++ r := v]> t) (l ++ r') = stat t (l ++ r').
Proof.
  intros Hr. destruct (l ++ r') eqn:E; [done |]. simpl. rewrite <- E.
  apply lookup_insert_ne. intros E'. by apply app_inv_head in E'.
Qed.

Lemma scaffold_at_templates name :
  scaffold_at ["templates"; name] = template_at name.
Proof. unfold scaffold_at. by destruct (decide ("templates" = "templates")). Qed.

Lemma scaffold_free n :
  n <> "modules" -> n <> "services" -> n <> "caching" -> n <> "tests" ->
  n <> "templates" -> scaffold_at [n] = None.
Proof.
  intros ? ? ? ? ?. unfold scaffold_at, subdir_at.
  rewrite bool_decide_eq_false_2; [reflexivity |]. unfold subdirectories. intros Hin.
  repeat (apply elem_of_cons in Hin as [->|Hin]; [contradiction |]).
  by apply elem_of_nil in Hin.
Qed.

(** The three outputs written into a project directory that holds the
    scaffold. *)
Lemma write_outputs_fresh p w :
  (forall rel, stat (files w) (resolve p ++ rel) = scaffold_at rel) ->
  exists w',
    write_outputs p (joinpath p "templates") w
    = (Ret (joinpath p "redzer.spec", joinpath p "redzer_installer.iss"), w')
    /\ files w' = with_outputs (resolve p) (files w)
    /\ calls w' = calls w.
Proof.
  intros Hsc. unfold write_outputs.
  destruct template_texts_have_no_cr as (N1 & N2 & N3).
  assert (stat (files w) (resolve p) = Some Dir) as Hd.
  { specialize (Hsc []). by rewrite app_nil_r in Hsc. }
  assert (forall n, scaffold_at [n] = None -> files w !! (resolve p ++ [n]) = None)
    as Hfree.
  { intros n Hn. by rewrite <- stat_snoc, Hsc. }
  assert (forall n, files w !! (resolve p ++ ["templates"; n]) = template_at n) as Ht.
  { intros n. rewrite <- stat_lookup by (by destruct (resolve p)).
    by rewrite Hsc, scaffold_at_templates. }
  pose proof (Ht "setup_template.py") as Ht1.
  pose proof (Ht "redzer_template.spec") as Ht2.
  pose proof (Ht "redzer_installer_template.iss") as Ht3.
  clear Ht Hsc. unfold template_at in Ht1, Ht2, Ht3.
  destruct (decide ("setup_template.py" = "setup_template.py")); [| contradiction].
  destruct (decide ("redzer_template.spec" = "setup_template.py")); [discriminate |].
  destruct (decide ("redzer_template.spec" = "redzer_template.spec")); [| contradiction].
  destruct (decide ("redzer_installer_template.iss" = "setup_template.py"));
    [discriminate |].
  destruct (decide ("redzer_installer_template.iss" = "redzer_template.spec"));
    [discriminate |].
  destruct (decide ("redzer_installer_template.iss" = "redzer_installer_template.iss"));
    [| contradiction].
  erewrite bind_Ret; cycle 1.
  { eapply instantiate_fresh; [reflexivity | reflexivity | reflexivity | reflexivity | ..].
    - rewrite resolve_child, snoc_snoc by reflexivity. exact Ht1.
    - apply Hfree, scaffold_free; discriminate.
    - exact Hd. }
  erewrite bind_Ret; cycle 1.
  { eapply instantiate_fresh; [reflexivity | reflexivity | reflexivity | reflexivity | ..];
      cbn [files].
    - rewrite resolve_child, snoc_snoc by reflexivity.
      rewrite lookup_insert_ne by (intros E; apply app_inv_head in E; discriminate).
      exact Ht2.
    - rewrite lookup_insert_child. destruct (decide (_ = _)); [discriminate |].
      apply Hfree, scaffold_free; discriminate.
    - rewrite stat_insert_child. exact Hd. }
  erewrite bind_Ret; cycle 1.
  { eapply instantiate_fresh; [reflexivity | reflexivity | reflexivity | reflexivity | ..];
      cbn [files].
    - rewrite resolve_child, snoc_snoc by reflexivity.
      rewrite !lookup_insert_ne by (intros E; apply app_inv_head in E; discriminate).
      exact Ht3.
    - rewrite !lookup_insert_child.
      repeat (destruct (decide (_ = _)); [discriminate |]).
      apply Hfree, scaffold_free; discriminate.
    - rewrite !stat_insert_child. exact Hd. }
  eexists. split; [reflexivity |]. split; [| reflexivity]. cbn [files].
  unfold with_outputs. rewrite !read_after_write by assumption. reflexivity.
Qed.

Lemma with_outputs_below (l : location) (t : tree) rel :
  (forall r, stat t (l ++ r) = scaffold_at r) ->
  stat (with_outputs l t) (l ++ rel) = project_at rel.
Proof.
  intros Hsc. unfold with_outputs.
  destruct rel as [|n [|m rel]].
  - rewrite !stat_insert_other by discriminate. apply Hsc.
  - unfold project_at, output_at. rewrite !stat_snoc, !lookup_insert_child.
    repeat (destruct (decide (_ = n)) as [<-|?]; [done |]).
    repeat (destruct (decide (n = _)) as [->|?]; [done |]).
    rewrite <- stat_snoc. apply Hsc.
  - rewrite !stat_insert_other by discriminate. apply Hsc.
Qed.

(** The file-writing steps return, and leave the project tree, where the
    reset can succeed. *)
Lemma materialize_succeeds fields name root venv w :
  fields !! "project_name" = Some name ->
  fields !! "project_dir" = Some root ->
  fields !! "venv_dir" = Some venv ->
  let pd := joinpath (PurePath root) name in
  sane w -> parts pd <> [] ->
  (forall k c, is_prefix k (resolve pd) = true -> stat (files w) k <> Some (File c)) ->
  exists w',
    materialize (record fields) w
    = (Ret (mkPaths pd (joinpath pd "templates") (joinpath pd venv),
            (joinpath pd "redzer.spec", joinpath pd "redzer_installer.iss")), w')
    /\ (forall rel, stat (files w') (resolve pd ++ rel) = project_at rel)
    /\ calls w' = calls w.
Proof.
  intros Hn Hr Hv pd Hsane Hp Hfiles.
  rewrite (materialize_reset _ _ _ _ _ Hn Hr Hv). fold pd.
  set (w0 := mkWorld (files w) (logs w ++ [(INFO, "Initializing project...")]) (calls w)).
  assert (sane w0) as Hsane0 by done.
  destruct (reset_tree_succeeds pd w0 Hsane0 Hp Hfiles) as [wr Hreset].
  pose proof (reset_tree_Ret _ _ _ Hsane0 Hreset) as (_ & Hsub & _ & _ & Hcr).
  destruct (write_templates_fresh (joinpath pd "templates") wr) as (w1 & Hw1 & Hf1).
  { rewrite resolve_child by done. exact (Hsub ["templates"]). }
  { intros n. rewrite resolve_child, snoc_snoc by done.
    rewrite <- stat_lookup by (by destruct (resolve pd)).
    exact (Hsub ["templates"; n]). }
  rewrite resolve_child in Hf1 by done.
  assert (forall rel, stat (files w1) (resolve pd ++ rel) = scaffold_at rel) as Hsc.
  { intros rel. rewrite Hf1. by apply with_templates_below. }
  destruct (write_outputs_fresh pd w1 Hsc) as (w2 & Hw2 & Hf2 & Hc2).
  exists w2. split; [| split].
  - unfold create_directories. erewrite bind_Ret; cycle 1.
    { erewrite bind_Ret by exact Hreset. exact Hw1. }
    by erewrite bind_Ret by exact Hw2.
  - intros rel. rewrite Hf2. by apply with_outputs_below.
  - rewrite Hc2. apply quiet_write_all in Hw1. by rewrite Hw1, Hcr.
Qed.

(** X14: for a configuration with its three path fields, in a sane world,
    where the project path is written without [..], has a name, and no
    regular file stands at or above it, the file-writing steps cannot
    fail: they return, and the project directory then holds exactly the
    five subdirectories, the three templates in [templates/] and the three
    output files, each with the text of the script, and nothing else at
    any depth, whatever was there before. *)
Theorem file_writing_succeeds (fields : gmap string string)
    (name root venv : string) (w : world) :
  fields !! "project_name" = Some name ->
  fields !! "project_dir" = Some root ->
  fields !! "venv_dir" = Some venv ->
  let project_dir := joinpath (PurePath root) name in
  sane w ->
  plain project_dir ->
  parts project_dir <> [] ->
  (forall k c, is_prefix k (resolve project_dir) = true ->
     stat (files w) k <> Some (File c)) ->
  exists made w',
    materialize (record fields) w = (Ret made, w')
    /\ project_dir_of made.1 = project_dir
    /\ forall rel, stat (files w') (resolve project_dir ++ rel) = project_at rel.
Proof.
  intros Hn Hr Hv pd Hsane _ Hp Hfiles.
  destruct (materialize_succeeds _ _ _ _ w Hn Hr Hv Hsane Hp Hfiles)
    as (w' & Hm & Hat & _).
  by eexists _, w'.
Qed.

(** ** When the workflow returns *)

Lemma run_command_decodable cmd env w :
  decodable -> exists w', run_command cmd env w = (Ret tt, w').
Proof.
  intros Hdec.
  destruct (Hdec (length (calls w)) cmd env (files w)) as [Hout Herr].
  destruct (run_command_returns cmd env w Hout Herr) as (w' & H & _). eauto.
Qed.

Lemma build_and_package_returns fields req old pd vd sp ip w :
  decodable ->
  fields !! "requirements_file" = Some req ->
  environ !! "PATH" = Some old ->
  exists w', build_and_package (record fields) pd vd sp ip w = (Ret tt, w').
Proof.
  intros Hdec Hreq Hold. unfold build_and_package.
  match goal with
  | |- context [bind (run_command ?c ?e) _ w] =>
      destruct (run_command_decodable c e w Hdec) as [w1 E1]
  end.
  erewrite bind_Ret by exact E1.
  erewrite bind_Ret by (by apply requirements_eq). cbv zeta.
  erewrite bind_Ret by (by apply old_path_eq).
  match goal with
  | |- context [bind (run_command ?c ?e) _ w1] =>
      destruct (run_command_decodable c e w1 Hdec) as [w2 E2]
  end.
  erewrite bind_Ret by exact E2.
  match goal with
  | |- context [bind (run_command ?c ?e) _ w2] =>
      destruct (run_command_decodable c e w2 Hdec) as [w3 E3]
  end.
  erewrite bind_Ret by exact E3.
  match goal with
  | |- context [bind (run_command ?c ?e) _ w3] =>
      destruct (run_command_decodable c e w3 Hdec) as [w4 E4]
  end.
  erewrite bind_Ret by exact E4.
  apply run_command_decodable. exact Hdec.
Qed.

(** C6, amended: for a configuration record with its four fields, in a
    process that has a [PATH], once the file-writing steps have returned
    and where the external commands write UTF-8 to their streams, the
    workflow returns and has issued exactly five commands, in this order:
    the creation of the environment, the installation of the requirements,
    the installation of the packager, the build against [redzer.spec], the
    compilation of [redzer_installer.iss].  In every run the commands
    issued are an initial segment of these five, each issued by the
    continuation of the one before; when a file-writing step raises, the
    workflow raises the same exception and none has been issued. *)
Theorem five_commands_in_order (fields : gmap string string)
    (name root venv requirements old_path : string) (w w' : world) (o : outcome unit) :
  fields !! "project_name" = Some name ->
  fields !! "project_dir" = Some root ->
  fields !! "venv_dir" = Some venv ->
  fields !! "requirements_file" = Some requirements ->
  environ !! "PATH" = Some old_path ->
  initialize_project (record fields) w = (o, w') ->
  let project_dir := joinpath (PurePath root) name in
  let venv_dir := joinpath project_dir venv in
  let five := workflow_calls project_dir venv_dir requirements old_path in
  (forall made wm,
     materialize (record fields) w = (Ret made, wm) ->
     decodable ->
     o = Ret tt /\ calls w' = calls w ++ five)
  /\ (exists n, calls w' = calls w ++ take n five /\ (o = Ret tt -> n = 5%nat))
  /\ (forall e wm,
        materialize (record fields) w = (Raise e, wm) ->
        o = Raise e /\ calls w' = calls w).
Proof.
  intros Hn Hr Hv Hreq Hold H pd vd five.
  pose proof (commands_are_an_initial_segment _ _ _ _ _ _ _ _ _ Hn Hr Hv Hreq Hold H)
    as (n & Hcalls & Hn5).
  fold pd vd five in Hcalls.
  split; [| split].
  - intros made wm Hm Hdec.
    destruct (build_and_package_returns fields requirements old_path
                (project_dir_of made.1) (venv_dir_of made.1) made.2.1 made.2.2 wm
                Hdec Hreq Hold) as [wb Eb].
    assert (o = Ret tt) as Ho.
    { unfold initialize_project in H. erewrite bind_Ret in H by exact Hm.
      erewrite bind_Ret in H by exact Eb. by injection H as <- _. }
    split; [exact Ho |]. by rewrite Hcalls, (Hn5 Ho).
  - by exists n.
  - intros e wm Hm. unfold initialize_project in H.
    erewrite bind_Raise in H by exact Hm. injection H as <- <-.
    split; [done |]. by eapply quiet_materialize.
Qed.

(** X15: where every external command writes UTF-8 to its streams, the
    exit statuses do not matter: once the file-writing steps have
    returned, for a configuration with a requirements file in a process
    with a [PATH], the workflow returns, having issued all five commands
    in order and logged its completion last, even if every command
    failed.  No failure of a command is reported otherwise than in the
    log. *)
Theorem exit_statuses_never_stop_the_workflow (fields : gmap string string)
    (requirements old_path : string) (w wm : world)
    (made : project_paths * (Path * Path)) :
  decodable ->
  fields !! "requirements_file" = Some requirements ->
  environ !! "PATH" = Some old_path ->
  materialize (record fields) w = (Ret made, wm) ->
  exists w',
    initialize_project (record fields) w = (Ret tt, w')
    /\ calls w' = calls w
                  ++ workflow_calls (project_dir_of made.1) (venv_dir_of made.1)
                       requirements old_path
    /\ last (logs w') = Some (INFO, "Project initialization complete").
Proof.
  intros Hdec Hreq Hold Hm.
  pose proof (materialize_Ret _ _ _ _ Hm) as (Hout & Hcalls & _).
  destruct (build_and_package_returns fields requirements old_path
              (project_dir_of made.1) (venv_dir_of made.1) made.2.1 made.2.2 wm
              Hdec Hreq Hold) as [wb Eb].
  eexists. split; [| split].
  - unfold initialize_project. erewrite bind_Ret by exact Hm.
    by erewrite bind_Ret by exact Eb.
  - cbn [calls]. rewrite Hout in Eb. cbn [fst snd] in Eb.
    apply (build_and_package_calls _ _ _ _ _ _ _ _ Hreq Hold) in Eb as (n & Hc & Hn5).
    rewrite Hc, Hcalls, (Hn5 eq_refl). done.
  - cbn [logs]. apply last_snoc.
Qed.

End Script.

(** ** The properties at sample inputs *)

Lemma empty_world_sane : sane [] empty_world.
Proof. split; [apply map_Forall_empty | reflexivity]. Qed.

Lemma used_world_sane : sane [] used_world.
Proof.
  split; [| reflexivity]. apply (bool_decide_unpack (well_formed used_tree)).
  vm_compute. exact I.
Qed.

(** C1: the environment creation fails and writes the byte 0xFF to its
    error stream.  [run_command] logs the failure and then raises
    [UnicodeDecodeError] from its handler: the workflow stops there, with
    the environment creation as the only command issued. *)
Theorem undecodable_failure_stops_the_workflow :
  let r := initialize_project [] demo_environ LF venv_fails_undecodable
             demo_config empty_world in
  r.1 = Raise UnicodeDecodeError
  /\ map command (calls r.2) = ["python -m venv /work/demo/venv"]
  /\ last (logs r.2) = Some (ERROR, "Command failed: python -m venv /work/demo/venv").
Proof. vm_compute. done. Qed.

Lemma outputs_equal_templates_witness :
  let r := materialize [] LF demo_config empty_world in
  same_bytes (files r.2) ["work"; "demo"; "templates"; "setup_template.py"]
    ["work"; "demo"; "setup.py"]
  /\ same_bytes (files r.2) ["work"; "demo"; "templates"; "redzer_template.spec"]
       ["work"; "demo"; "redzer.spec"]
  /\ same_bytes (files r.2)
       ["work"; "demo"; "templates"; "redzer_installer_template.iss"]
       ["work"; "demo"; "redzer_installer.iss"].
Proof.
  intros r.
  apply (outputs_equal_templates [] LF demo_config empty_world r.2
           (demo_paths, (joinpath demo_dir "redzer.spec",
                         joinpath demo_dir "redzer_installer.iss"))).
  apply (run_Ret (materialize [] LF demo_config) empty_world).
  vm_compute. reflexivity.
Defined.

Lemma missing_configuration_witness :
  main [] demo_environ LF all_succeed load_null "missing.yaml" used_world
  = (Raise (SystemExit 1),
     mkWorld used_tree [(ERROR, "Configuration file not found: missing.yaml")] [])
  /\ main [] demo_environ LF all_succeed load_null "config.yaml/" configured_world
     = (Raise (SystemExit 1),
        mkWorld (files configured_world)
          [(ERROR, "Configuration file not found: config.yaml/")] []).
Proof.
  split.
  - apply (proj1 (missing_configuration_is_the_only_exit [] demo_environ LF
                    all_succeed load_null "missing.yaml" used_world)).
    vm_compute. reflexivity.
  - apply (proj1 (missing_configuration_is_the_only_exit [] demo_environ LF
                    all_succeed load_null "config.yaml/" configured_world)).
    vm_compute. reflexivity.
Defined.

Lemma reset_leaves_five_subdirectories_witness :
  let w' := (reset_tree [] demo_dir used_world).2 in
  stat (files w') ["work"; "demo"; "modules"] = Some Dir
  /\ stat (files w') ["work"; "demo"; "templates"] = Some Dir
  /\ stat (files w') ["work"; "demo"; "stray.txt"] = None.
Proof.
  intros w'.
  assert (derive_paths demo_config used_world = (Ret demo_paths, used_world)) as Hd
    by (vm_compute; reflexivity).
  assert (reset_tree [] (project_dir_of demo_paths) used_world = (Ret tt, w')) as Hr
    by (apply (run_Ret (reset_tree [] demo_dir) used_world tt); vm_compute; reflexivity).
  pose proof (reset_leaves_five_subdirectories [] demo_config demo_paths
                used_world w' Hd used_world_sane Hr) as H.
  split; [exact (H "modules") | split; [exact (H "templates") | exact (H "stray.txt")]].
Defined.

Lemma reset_is_idempotent_witness :
  let w1 := (reset_tree [] demo_dir used_world).2 in
  let v1 := (create_directories [] LF demo_dir (joinpath demo_dir "templates")
               used_world).2 in
  ((exists w2, reset_tree [] demo_dir w1 = (Ret tt, w2) /\ files w2 = files w1)
   /\ files w1 !! ["work"; "demo"; "stray.txt"] = None
   /\ files w1 !! ["work"; "demo"; "old"; "notes"] = None)
  /\ ((exists v2,
         create_directories [] LF demo_dir (joinpath demo_dir "templates") v1
         = (Ret tt, v2)
         /\ files v2 = files v1)
      /\ files v1 !! ["work"; "demo"; "stray.txt"] = None).
Proof.
  intros w1 v1.
  assert (reset_tree [] demo_dir used_world = (Ret tt, w1)) as Hr
    by (apply (run_Ret (reset_tree [] demo_dir) used_world tt); vm_compute; reflexivity).
  assert (create_directories [] LF demo_dir (joinpath demo_dir "templates") used_world
          = (Ret tt, v1)) as Hc.
  { apply (run_Ret (create_directories [] LF demo_dir (joinpath demo_dir "templates"))
             used_world tt).
    vm_compute. reflexivity. }
  destruct (reset_is_idempotent [] LF demo_dir used_world used_world_sane)
    as [Hreset Hsetup].
  destruct (Hreset w1 Hr) as (Hagain & Hsub & _).
  destruct (Hsetup v1 Hc) as (Hagain' & Hsc).
  split.
  - split; [exact Hagain |].
    split; [exact (Hsub ["stray.txt"]) | exact (Hsub ["old"; "notes"])].
  - split; [exact Hagain' | exact (Hsc ["stray.txt"])].
Defined.

Lemma reset_of_missing_target_witness :
  exists w',
    reset_tree [] demo_dir empty_world = (Ret tt, w')
    /\ logs w' = [created_log]
    /\ stat (files w') ["work"; "demo"; "templates"] = Some Dir.
Proof.
  destruct (reset_of_missing_target [] demo_dir empty_world) as [_ H];
    [apply (bool_decide_unpack (portable demo_dir)); vm_compute; exact I
    | reflexivity |].
  assert (forall k c, is_prefix k (resolve [] demo_dir) = true ->
            stat (files empty_world) k <> Some (File c)) as Hfiles.
  { intros k c _. destruct k; [done |]. simpl. by rewrite lookup_empty. }
  destruct (H empty_world_sane Hfiles) as (w' & Hr & Hl & _ & Hsub & _).
  exists w'. split; [exact Hr |]. split; [exact Hl |]. exact (Hsub ["templates"]).
Defined.

Lemma missing_venv_dir_witness :
  initialize_project [] demo_environ LF all_succeed
    (record demo_fields_without_venv) used_world
  = (Raise (KeyError "venv_dir"), used_world).
Proof.
  destruct (missing_venv_dir_fails_first [] demo_environ LF all_succeed
              demo_fields_without_venv used_world) as (key & H & Hkey);
    [vm_compute; reflexivity |].
  rewrite Hkey in H; [exact H | |]; eexists; vm_compute; reflexivity.
Defined.

Lemma existing_configuration_witness :
  load_config ["home"; "src"] load_null "../config.yaml" home_world
  = (Ret YNull, home_world)
  /\ main ["home"; "src"] demo_environ LF all_succeed load_null "../config.yaml"
       home_world
     = (Raise TypeError, home_world).
Proof.
  destruct (existing_configuration_is_loaded_unchecked ["home"; "src"] demo_environ LF
              all_succeed load_null "../config.yaml" ["home"; "config.yaml"] "x"
              home_world)
    as (Hload & _ & Hnull & _); [vm_compute; reflexivity |].
  split; [apply Hload; reflexivity |].
  destruct Hnull as (e & Hget & Hmain & _); [reflexivity |].
  injection Hget as <-. exact Hmain.
Defined.

Lemma venv_fails_decodable : decodable venv_fails.
Proof. intros [|n] cmd env t; split; reflexivity. Qed.

Lemma five_commands_in_order_witness :
  let r := initialize_project [] demo_environ LF venv_fails demo_config empty_world in
  r.1 = Ret tt
  /\ map command (calls r.2)
     = [ "python -m venv /work/demo/venv";
         "/work/demo/venv/Scripts/activate && /work/demo/venv/Scripts/pip install -r /work/demo/requirements.txt";
         "/work/demo/venv/Scripts/activate && /work/demo/venv/Scripts/pip install pyinstaller";
         "/work/demo/venv/Scripts/pyinstaller /work/demo/redzer.spec";
         "ISCC /work/demo/redzer_installer.iss" ].
Proof.
  intros r.
  set (m := materialize [] LF demo_config).
  assert (m empty_world
          = (Ret (demo_paths, (joinpath demo_dir "redzer.spec",
                               joinpath demo_dir "redzer_installer.iss")),
             (m empty_world).2)) as Hm.
  { apply (run_Ret m empty_world). vm_compute. reflexivity. }
  destruct (five_commands_in_order [] demo_environ LF venv_fails demo_fields
              "demo" "/work" "venv" "requirements.txt" "/usr/bin"
              empty_world r.2 r.1 eq_refl eq_refl eq_refl eq_refl eq_refl
              (surjective_pairing r))
    as (Hfive & _ & _).
  destruct (Hfive _ _ Hm venv_fails_decodable) as [Hret Hcalls].
  split; [exact Hret |]. rewrite Hcalls. vm_compute. reflexivity.
Defined.

(** C6, as stated, at the demo configuration where a regular file stands
    in place of the project directory: the workflow raises at the delete,
    before its first command, and has issued none of the five. *)
Lemma a_blocked_run_issues_no_command :
  let r := initialize_project [] demo_environ LF all_succeed demo_config
             blocked_world in
  r.1 = Raise (NotADirectoryError ["work"; "demo"])
  /\ calls r.2 = []
  /\ calls r.2 <> calls blocked_world
                 ++ workflow_calls demo_environ demo_dir (joinpath demo_dir "venv")
                      "requirements.txt" "/usr/bin".
Proof.
  assert ((initialize_project [] demo_environ LF all_succeed demo_config
             blocked_world).1 = Raise (NotADirectoryError ["work"; "demo"])) as Hraise
    by (vm_compute; reflexivity).
  assert (calls (initialize_project [] demo_environ LF all_succeed demo_config
                   blocked_world).2 = []) as Hcalls
    by (vm_compute; reflexivity).
  intros r. split; [exact Hraise |]. split; [exact Hcalls |].
  unfold r. rewrite Hcalls. discriminate.
Qed.

(** C9, as stated, at a project called demo: the file-writing steps run
    to their end and no file at the project root or in [templates/] is
    named after the project. *)
Lemma files_are_not_named_after_the_project :
  let r := materialize [] LF demo_config empty_world in
  (exists made, r.1 = Ret made)
  /\ ~ files_named "demo" ["work"; "demo"] (files r.2).
Proof.
  split.
  - vm_compute. eexists. reflexivity.
  - intros (_ & [bytes H] & _). vm_compute in H. discriminate.
Qed.

Lemma output_names_are_fixed_witness :
  let r := materialize [] LF demo_config empty_world in
  files_named "redzer" ["work"; "demo"] (files r.2).
Proof.
  intros r.
  apply (output_names_are_fixed [] LF demo_config empty_world r.2
           (demo_paths, (joinpath demo_dir "redzer.spec",
                         joinpath demo_dir "redzer_installer.iss"))).
  apply (run_Ret (materialize [] LF demo_config) empty_world).
  vm_compute. reflexivity.
Defined.

(** *** Further properties at sample inputs *)

Lemma home_world_sane : sane ["home"] home_world.
Proof.
  split; [| vm_compute; reflexivity].
  apply (bool_decide_unpack (well_formed (files home_world))). vm_compute. exact I.
Qed.

Lemma used_world_clear k c :
  is_prefix k ["work"; "demo"] = true -> stat (files used_world) k <> Some (File c).
Proof.
  intros [r Hr]%is_prefix_spec Hs.
  destruct k as [|a [|b [|x k]]]; [discriminate Hs | | | discriminate Hr].
  - injection Hr as <- _. vm_compute in Hs. discriminate Hs.
  - injection Hr as <- <- _. vm_compute in Hs. discriminate Hs.
Qed.

Lemma all_fail_decodable : decodable all_fail.
Proof. intros n cmd env t. split; reflexivity. Qed.

Lemma write_then_read_witness :
  let w' := (write_file [] CRLF notes_path notes used_world).2 in
  read_file [] notes_path w' = (Ret notes, w').
Proof.
  intros w'.
  apply (write_then_read [] CRLF notes_path notes used_world w').
  - vm_compute. reflexivity.
  - apply (run_Ret (write_file [] CRLF notes_path notes) used_world tt).
    vm_compute. reflexivity.
Defined.

Lemma write_file_all_or_nothing_witness :
  let r := write_file [] LF notes_path notes empty_world in
  (exists e, r.1 = Raise e) /\ r.2 = empty_world.
Proof.
  intros r.
  assert (plain notes_path) as Hplain.
  { apply (bool_decide_unpack (".." ∉ ["work"; "notes.txt"])). vm_compute. exact I. }
  destruct (write_file_all_or_nothing [] LF notes_path notes empty_world r.2 r.1
              Hplain (surjective_pairing r)) as [_ Hnot].
  apply Hnot. intros [_ Hparent]. vm_compute in Hparent. discriminate Hparent.
Defined.

Lemma run_command_logs_and_returns_witness :
  run_command all_fail "ISCC redzer_installer.iss" None empty_world
  = (Ret tt,
     mkWorld ∅
       [(ERROR, "Command failed: ISCC redzer_installer.iss"); (ERROR, "it failed")]
       [mkCall "ISCC redzer_installer.iss" None]).
Proof.
  apply (run_command_logs_and_returns all_fail "ISCC redzer_installer.iss" None
           empty_world); intros _; vm_compute; reflexivity.
Defined.

Lemma run_command_raises_on_undecodable_witness :
  let r := run_command succeed_undecodable "ISCC redzer_installer.iss" None
             empty_world in
  r.1 = Raise UnicodeDecodeError
  /\ logs r.2 = [(INFO, "Command succeeded: ISCC redzer_installer.iss")]
  /\ calls r.2 = [mkCall "ISCC redzer_installer.iss" None].
Proof.
  intros r.
  destruct (run_command_raises_on_undecodable succeed_undecodable
              "ISCC redzer_installer.iss" None empty_world r.2 r.1
              (surjective_pairing r)) as (_ & Hiff & _ & Hcalls & Hlogs).
  assert (r.1 = Raise UnicodeDecodeError) as Hraise
    by (apply Hiff; vm_compute; reflexivity).
  split; [exact Hraise |]. split; [exact (Hlogs Hraise) | exact Hcalls].
Defined.

Lemma load_config_only_reads_witness :
  let r := load_config ["home"] load_null "config.yaml" home_world in
  files r.2 = files home_world /\ calls r.2 = [] /\ logs r.2 = [].
Proof.
  intros r.
  destruct (load_config_only_reads ["home"] load_null "config.yaml" home_world
              r.2 r.1 (surjective_pairing r)) as (Hfiles & Hcalls & Hlogs).
  split; [exact Hfiles |]. split; [exact Hcalls |].
  destruct Hlogs as [Hlogs | Hexit]; [exact Hlogs |].
  vm_compute in Hexit. discriminate Hexit.
Defined.

Lemma unreadable_configuration_witness :
  load_config ["home"] load_nothing "src/" home_world
  = (Raise (IsADirectoryError ["home"; "src"]), home_world)
  /\ load_config ["home"] load_nothing "./config.yaml" home_world
     = (Raise YAMLError, home_world)
  /\ load_config ["home"] load_utf8 "config.yaml" garbled_world
     = (Raise UnicodeDecodeError, garbled_world).
Proof.
  split; [| split].
  - apply (unreadable_configuration_raises ["home"] load_nothing "src/"
             ["home"; "src"] home_world).
    vm_compute. reflexivity.
  - apply (proj2 (unreadable_configuration_raises ["home"] load_nothing
                    "./config.yaml" ["home"; "config.yaml"] home_world) "x");
      vm_compute; reflexivity.
  - apply (proj2 (unreadable_configuration_raises ["home"] load_utf8 "config.yaml"
                    ["home"; "config.yaml"] garbled_world)
             (String (ascii_of_nat 255) EmptyString));
      vm_compute; reflexivity.
Defined.

Lemma late_lookups_witness :
  let r := initialize_project [] demo_environ LF all_succeed
             (record demo_fields_without_requirements) empty_world in
  r.1 = Raise (KeyError "requirements_file")
  /\ map command (calls r.2) = ["python -m venv /work/demo/venv"].
Proof.
  intros r.
  set (m := materialize [] LF (record demo_fields_without_requirements)).
  assert (m empty_world
          = (Ret (demo_paths, (joinpath demo_dir "redzer.spec",
                               joinpath demo_dir "redzer_installer.iss")),
             (m empty_world).2)) as Hm.
  { apply (run_Ret m empty_world). vm_compute. reflexivity. }
  destruct (late_lookups_fail_after_the_reset [] demo_environ LF all_succeed
              demo_fields_without_requirements empty_world (m empty_world).2 r.2
              _ r.1 (or_introl eq_refl) Hm (surjective_pairing r))
    as (Ho & Hcalls & _).
  split.
  - destruct Ho as [Ho | Ho]; [exact Ho |]. vm_compute in Ho. discriminate Ho.
  - rewrite Hcalls. vm_compute. reflexivity.
Defined.

Lemma no_command_before_the_files_witness :
  let wm := (materialize [] LF demo_config walled_world).2 in
  initialize_project [] demo_environ LF all_succeed demo_config walled_world
  = (Raise (NotADirectoryError ["work"; "demo"]), wm)
  /\ calls wm = [].
Proof.
  intros wm.
  apply (no_command_before_the_files [] demo_environ LF all_succeed demo_config
           walled_world wm).
  apply (run_Raise (materialize [] LF demo_config) walled_world).
  vm_compute. reflexivity.
Defined.

Lemma a_file_in_place_witness :
  initialize_project [] demo_environ LF all_succeed demo_config blocked_world
  = (Raise (NotADirectoryError ["work"; "demo"]),
     mkWorld (files blocked_world)
       [(INFO, "Initializing project...");
        (INFO, "Removing existing project directory: /work/demo")] []).
Proof.
  apply (a_file_in_place_of_the_project_directory [] demo_environ LF all_succeed
           demo_fields "demo" "/work" "venv" "in the way" blocked_world);
    vm_compute; reflexivity.
Defined.

Lemma the_working_directory_is_emptied_witness :
  exists w',
    initialize_project ["home"] demo_environ LF all_succeed (record dot_fields)
      home_world
    = (Raise (OSError ["home"]), w')
    /\ files w' !! ["home"; "config.yaml"] = None
    /\ files w' !! ["home"; "src"; "cli.py"] = None
    /\ files w' !! ["etc"] = Some Dir
    /\ calls w' = [].
Proof.
  destruct (the_working_directory_is_emptied ["home"] demo_environ LF all_succeed
              dot_fields "." "." "venv" home_world)
    as (w' & Hrun & Hfiles & Hcalls);
    [vm_compute; reflexivity .. | exact home_world_sane |].
  exists w'. split; [exact Hrun |].
  rewrite !Hfiles by discriminate.
  split; [| split; [| split]]; [vm_compute; reflexivity .. | exact Hcalls].
Defined.

Lemma absolute_values_witness :
  exists paths,
    derive_paths (record absolute_fields) empty_world = (Ret paths, empty_world)
    /\ project_dir_of paths = mkPath true ["srv"; "app"]
    /\ venv_dir_of paths = mkPath true ["opt"; "venv"].
Proof.
  destruct (absolute_values_replace_the_prefix [] absolute_fields "/srv/app" "/work"
              "/opt/venv" empty_world)
    as (paths & Hd & Hproject & _ & Hvenv & _); [vm_compute; reflexivity .. |].
  exists paths. split; [exact Hd |].
  split; [exact (Hproject eq_refl) | exact (Hvenv eq_refl)].
Defined.

Lemma other_keys_are_ignored_witness :
  initialize_project [] demo_environ LF all_fail (record demo_fields_with_colour)
    used_world
  = initialize_project [] demo_environ LF all_fail (record demo_fields) used_world.
Proof.
  apply (other_keys_are_ignored [] demo_environ LF all_fail demo_fields_with_colour
           demo_fields used_world);
    vm_compute; reflexivity.
Defined.

Lemma file_writing_is_confined_witness :
  let r := materialize ["home"] LF (record local_fields) home_world in
  files r.2 !! ["home"; "src"; "cli.py"] = Some (File "y")
  /\ files r.2 !! ["home"; "config.yaml"] = Some (File "x").
Proof.
  intros r.
  assert (derive_paths (record local_fields) home_world
          = (Ret (mkPaths (mkPath false ["demo"]) (mkPath false ["demo"; "templates"])
                    (mkPath false ["demo"; "venv"])), home_world)) as Hd
    by (vm_compute; reflexivity).
  assert (plain (mkPath false ["demo"])) as Hplain.
  { apply (bool_decide_unpack (".." ∉ ["demo"])). vm_compute. exact I. }
  split.
  - apply (file_writing_is_confined ["home"] LF (record local_fields) _ home_world
             r.2 r.1 ["home"; "src"; "cli.py"] Hd Hplain (surjective_pairing r));
      vm_compute; reflexivity.
  - apply (file_writing_is_confined ["home"] LF (record local_fields) _ home_world
             r.2 r.1 ["home"; "config.yaml"] Hd Hplain (surjective_pairing r));
      vm_compute; reflexivity.
Defined.

Lemma file_writing_succeeds_witness :
  exists made w',
    materialize [] LF demo_config used_world = (Ret made, w')
    /\ stat (files w') ["work"; "demo"; "stray.txt"] = None
    /\ stat (files w') ["work"; "demo"; "old"; "notes"] = None
    /\ stat (files w') ["work"; "demo"; "tests"] = Some Dir
    /\ stat (files w') ["work"; "demo"; "redzer.spec"]
       = Some (File (write_newlines LF redzer_spec_content)).
Proof.
  destruct (file_writing_succeeds [] LF demo_fields "demo" "/work" "venv" used_world)
    as (made & w' & Hrun & _ & Hat);
    [vm_compute; reflexivity .. | exact used_world_sane
    | apply (bool_decide_unpack (".." ∉ ["work"; "demo"])); vm_compute; exact I
    | discriminate | exact used_world_clear |].
  exists made, w'. split; [exact Hrun |].
  split; [exact (Hat ["stray.txt"]) |].
  split; [exact (Hat ["old"; "notes"]) |].
  split; [exact (Hat ["tests"]) | exact (Hat ["redzer.spec"])].
Defined.

Lemma exit_statuses_witness :
  exists w',
    initialize_project [] demo_environ LF all_fail demo_config empty_world
    = (Ret tt, w')
    /\ length (calls w') = 5%nat
    /\ last (logs w') = Some (INFO, "Project initialization complete").
Proof.
  set (m := materialize [] LF demo_config).
  assert (m empty_world
          = (Ret (demo_paths, (joinpath demo_dir "redzer.spec",
                               joinpath demo_dir "redzer_installer.iss")),
             (m empty_world).2)) as Hm.
  { apply (run_Ret m empty_world). vm_compute. reflexivity. }
  destruct (exit_statuses_never_stop_the_workflow [] demo_environ LF all_fail
              demo_fields "requirements.txt" "/usr/bin" empty_world
              (m empty_world).2 _ all_fail_decodable eq_refl eq_refl Hm)
    as (w' & Hrun & Hcalls & Hlast).
  exists w'. split; [exact Hrun |]. split; [| exact Hlast].
  rewrite Hcalls. reflexivity.
Defined.
